(** * DS1977 iButton protocol decoder (pd.py): shallow embedding and properties

    The decoder is a callback, [Decoder.decode], that the host calls once per
    1-Wire network event.  It mutates the decoder object ([bytes],
    [family_code], [ss], [es]) and emits annotations through [putx].  The
    embedding threads the object explicitly through a small state/output/error
    monad, so that each branch of [decode] reads like the Python it models. *)

From Stdlib Require Import ZArith Ascii String List Lia.
From stdpp Require Import base decidable option numbers list strings gmap pretty.

Local Open Scope Z_scope.

(** ** Python values and exceptions *)

(** The exceptions [decode] could raise: reading [self.ss]/[self.es] before
    any assignment, indexing [self.bytes] out of range, looking up a missing
    dictionary key, and the float conversion inside [int(x / 4)]. *)
Inductive exn : Type :=
  | AttributeError
  | IndexError
  | KeyError
  | OverflowError.

Inductive result (A : Type) : Type :=
  | Ok (a : A)
  | Raise (e : exn).
Arguments Ok {A} a.
Arguments Raise {A} e.

(** [len(l)] as a Python integer. *)
Definition len {A} (l : list A) : Z := Z.of_nat (length l).

(** [l[i]]: negative indices count from the end, anything out of range raises
    [IndexError]. *)
Definition getitem (l : list Z) (i : Z) : result Z :=
  let j := if i <? 0 then i + len l else i in
  if j <? 0 then Raise IndexError
  else match l !! Z.to_nat j with
       | Some x => Ok x
       | None => Raise IndexError
       end.

(** [l[a:]] and [l[a:b]] for non-negative constant bounds; slices never raise. *)
Definition slice_from (a : nat) (l : list Z) : list Z := drop a l.
Definition slice (a b : nat) (l : list Z) : list Z := take (b - a) (drop a l).

(** ** Text formatting *)

Definition hex_char (d : N) : ascii :=
  match d with
  | 0 => "0" | 1 => "1" | 2 => "2" | 3 => "3" | 4 => "4" | 5 => "5"
  | 6 => "6" | 7 => "7" | 8 => "8" | 9 => "9" | 10 => "a" | 11 => "b"
  | 12 => "c" | 13 => "d" | 14 => "e" | _ => "f"
  end%N%char.

(** Lower-case hexadecimal digits of a natural number, most significant
    first.  A number has at most as many hex digits as bits, which bounds the
    recursion. *)
Fixpoint hex_go (fuel : nat) (x : N) (s : string) : string :=
  match fuel with
  | O => s
  | S fuel =>
      if decide (x = 0)%N then s
      else hex_go fuel (x `div` 16)%N (String (hex_char (x `mod` 16)%N) s)
  end.

Definition hex (x : N) : string :=
  if decide (x = 0)%N then "0" else hex_go (N.size_nat x) x "".

Definition zeros (k : nat) : string := string_of_list_ascii (repeat "0"%char k).

(** Left-pad with zeros to [w] characters. *)
Definition zfill (w : nat) (s : string) : string :=
  zeros (w - String.length s) +:+ s.

(** ['%0wx' % n] and [format(n, '0wx')]: the sign counts towards the width. *)
Definition fmt_x (w : nat) (n : Z) : string :=
  if n <? 0 then "-" +:+ zfill (w - 1) (hex (Z.to_N (- n)))
  else zfill w (hex (Z.to_N n)).

(** [format(n, '#0wx')]: as above with the [0x] prefix, which also counts
    towards the width. *)
Definition fmt_hash_x (w : nat) (n : Z) : string :=
  if n <? 0 then "-0x" +:+ zfill (w - 3) (hex (Z.to_N (- n)))
  else "0x" +:+ zfill (w - 2) (hex (Z.to_N n)).

(** ['%d' % n]. *)
Definition fmt_d (n : Z) : string := pretty n.

(** [sep.join(l)]. *)
Fixpoint join (sep : string) (l : list string) : string :=
  match l with
  | [] => ""
  | [s] => s
  | s :: l => s +:+ sep +:+ join sep l
  end.

(** The value of a hex digit, and of a string of hex digits read from the
    left. *)
Definition hex_digit_value (c : ascii) : N :=
  match c with
  | "0" => 0 | "1" => 1 | "2" => 2 | "3" => 3 | "4" => 4 | "5" => 5
  | "6" => 6 | "7" => 7 | "8" => 8 | "9" => 9 | "a" => 10 | "b" => 11
  | "c" => 12 | "d" => 13 | "e" => 14 | "f" => 15 | _ => 0
  end%char%N.

Fixpoint hex_value_from (acc : N) (s : string) : N :=
  match s with
  | EmptyString => acc
  | String c s => hex_value_from (16 * acc + hex_digit_value c) s
  end.

Definition hex_value (s : string) : N := hex_value_from 0 s.

(** ** [int((es - ss) / 4)]

    In Python 3 [/] on two integers is true division: the quotient is
    delivered as the nearest binary64 float, ties to even, and
    [OverflowError] is raised when it does not fit.  Dividing by 4 only
    changes the exponent, so the float is the integer rounded to 53
    significant bits, divided by 4.  [int] then truncates toward zero. *)

(** Nearest integer with at most 53 significant bits, ties to even, of [a >= 0]. *)
Definition round53 (a : Z) : Z :=
  let k := Z.log2 a - 52 in
  if k <=? 0 then a
  else
    let q := Z.shiftr a k in
    let r := a - Z.shiftl q k in
    let half := Z.shiftl 1 (k - 1) in
    if (half <? r) || ((half =? r) && Z.odd q) then Z.shiftl (q + 1) k
    else Z.shiftl q k.

Definition int_truediv_4 (a : Z) : result Z :=
  let m := round53 (Z.abs a) in
  if 2 ^ 1026 <=? m then Raise OverflowError
  else Ok (Z.sgn a * (m `div` 4)).

(** ** Module-level tables *)

(** Dictionary of FUNCTION commands and their names. *)
Definition commands_1977 : gmap Z (list string) :=
  list_to_map
    [ (0x0f, ["Write Scratchpad"; "WR Sc"]);
      (0xaa, ["Read Scratchpad"; "RD Sc"]);
      (0x99, ["Copy Scratchpad with Password"; "WR Mem"]);
      (0x69, ["Read Memory with Password"; "RD Mem"]);
      (0xc3, ["Verify Password"; "Verify Pwd"]);
      (0xcc, ["Read Version Command"; "RD Ver"]) ].

(** ** [crc16] *)

(** The reverse polynom of [crc16]. *)
Definition reverse : Z := 0xa001.

(** One pass of the inner loop [for bit in range(8)], on the pair of the
    running [crc] and what is left of [byte]. *)
Definition crc16_bit (st : Z * Z) : Z * Z :=
  let '(crc, byte) := st in
  (if negb (Z.land (Z.lxor byte crc) 1 =? 0)
   then Z.lxor (Z.shiftr crc 1) reverse
   else Z.shiftr crc 1,
   Z.shiftr byte 1).

(** The body of the outer loop: eight passes over one element. *)
Definition crc16_byte (crc byte : Z) : Z :=
  (Nat.iter 8 crc16_bit (crc, byte)).1.

(** [crc16(byte_array)]. *)
Definition crc16 (byte_array : list Z) : Z :=
  Z.lxor (foldl crc16_byte 0x0000 byte_array) 0xffff.

(** [ann_data, ..., ann_err = range(12)]. *)
Definition ann_data : Z := 0.
Definition ann_reset : Z := 1.
Definition ann_rom : Z := 2.
Definition ann_cmd : Z := 3.
Definition ann_pwd : Z := 4.
Definition ann_addr : Z := 5.
Definition ann_end : Z := 6.
Definition ann_stat : Z := 7.
Definition ann_crc : Z := 8.
Definition ann_succ : Z := 9.
Definition ann_fail : Z := 10.
Definition ann_err : Z := 11.

(** [Decoder.annotations]: the annotation classes, indexed by the
    constants above. *)
Definition annotations : list (string * string) :=
  [ ("data", "Data");
    ("reset", "Reset/Presence");
    ("rom", "ROM");
    ("cmd", "Command");
    ("pwd", "Password");
    ("addr", "Address");
    ("ending", "Ending Offset");
    ("status", "Data Status");
    ("crc", "CRC");
    ("succ", "Success");
    ("fail", "Fail");
    ("err", "Error") ].

(** The third component of a row is written as a parenthesised list of
    classes.  With several classes that is a tuple; [(ann_err)] has no
    trailing comma and is the bare integer. *)
Inductive row_classes : Type :=
  | PyTuple (t : list Z)
  | PyInt (n : Z).

(** [Decoder.annotations_row]. *)
Definition annotations_row : list (string * string * row_classes) :=
  [ ("bits", "Bits",
     PyTuple [ann_data; ann_reset; ann_rom; ann_cmd; ann_pwd; ann_addr;
              ann_crc; ann_succ; ann_fail]);
    ("err", "Error", PyInt ann_err) ].

(** The classes a row names, reading a bare integer as that one class. *)
Definition classes_of (c : row_classes) : list Z :=
  match c with
  | PyTuple t => t
  | PyInt n => [n]
  end.

(** The classes of the row with identifier [id]; none when there is no such row. *)
Definition row (id : string) : list Z :=
  match filter (λ r, r.1.1 = id) annotations_row with
  | r :: _ => classes_of r.2
  | [] => []
  end.

(** ** The decoder object *)

(** [ss] and [es] are not created by [reset]: they exist only once [decode]
    has assigned them, so they are optional here. *)
Record Decoder : Type := mkDecoder {
  bytes : list Z;
  family_code : option Z;
  family : string;
  commands : gmap Z (list string);
  ss : option Z;
  es : option Z;
}.

(** [Decoder.__init__], which calls [reset] on the new object. *)
Definition init : Decoder :=
  {| bytes := []; family_code := None; family := "DS1977";
     commands := commands_1977; ss := None; es := None |}.

(** [Decoder.reset], also on an object that has decoded before: the four
    attributes are assigned, [ss] and [es] are left as they are. *)
Definition reset (d : Decoder) : Decoder :=
  {| bytes := []; family_code := None; family := "DS1977";
     commands := commands_1977; ss := ss d; es := es d |}.

(** One [self.put(ss, es, self.out_ann, [cls, texts])]. *)
Record annotation : Type := Put {
  a_ss : Z;
  a_es : Z;
  a_cls : Z;
  a_texts : list string;
}.

(** The events of the [onewire_network] decoder this one stacks on. *)
Inductive event : Type :=
  | RESET_PRESENCE (val : bool)
  | ROM (val : Z)
  | DATA (val : Z).

(** ** The monad of [decode]: decoder state, emitted annotations, exceptions *)

Definition M (A : Type) : Type :=
  Decoder → result (A * Decoder * list annotation).

Global Instance M_ret : MRet M := λ A a d, Ok (a, d, []).

Global Instance M_bind : MBind M := λ A B f m d,
  match m d with
  | Raise e => Raise e
  | Ok (a, d1, o1) =>
      match f a d1 with
      | Raise e => Raise e
      | Ok (b, d2, o2) => Ok (b, d2, o1 ++ o2)
      end
  end.

Definition lift {A} (r : result A) : M A := λ d,
  match r with
  | Ok a => Ok (a, d, [])
  | Raise e => Raise e
  end.

Definition pass : M unit := mret ().

Definition get_bytes : M (list Z) := λ d, Ok (bytes d, d, []).
Definition get_family : M string := λ d, Ok (family d, d, []).
Definition get_commands : M (gmap Z (list string)) := λ d, Ok (commands d, d, []).

(** Attribute assignment on the decoder object. *)
Definition with_bytes (l : list Z) (d : Decoder) : Decoder :=
  {| bytes := l; family_code := family_code d; family := family d;
     commands := commands d; ss := ss d; es := es d |}.

Definition with_family_code (c : Z) (d : Decoder) : Decoder :=
  {| bytes := bytes d; family_code := Some c; family := family d;
     commands := commands d; ss := ss d; es := es d |}.

Definition with_ss (t : Z) (d : Decoder) : Decoder :=
  {| bytes := bytes d; family_code := family_code d; family := family d;
     commands := commands d; ss := Some t; es := es d |}.

Definition with_es (t : Z) (d : Decoder) : Decoder :=
  {| bytes := bytes d; family_code := family_code d; family := family d;
     commands := commands d; ss := ss d; es := Some t |}.

Definition set_bytes (l : list Z) : M unit := λ d, Ok ((), with_bytes l d, []).
Definition set_family_code (c : Z) : M unit := λ d, Ok ((), with_family_code c d, []).
Definition set_ss (t : Z) : M unit := λ d, Ok ((), with_ss t d, []).
Definition set_es (t : Z) : M unit := λ d, Ok ((), with_es t d, []).

(** [self.bytes.append(val)]. *)
Definition append_bytes (val : Z) : M unit :=
  bs ← get_bytes; set_bytes (bs ++ [val]).

(** [self.bytes[i]]. *)
Definition bytes_at (i : Z) : M Z :=
  bs ← get_bytes; lift (getitem bs i).

(** [len(self.bytes)]. *)
Definition len_bytes : M Z :=
  bs ← get_bytes; mret (len bs).

(** [self.commands[val]]. *)
Definition commands_at (val : Z) : M (list string) :=
  cs ← get_commands;
  match cs !! val with
  | Some names => mret names
  | None => lift (Raise KeyError)
  end.

(** [putx]: reads [self.ss] and [self.es], which must exist. *)
Definition putx (cls : Z) (texts : list string) : M unit := λ d,
  match ss d, es d with
  | Some s, Some e => Ok ((), d, [Put s e cls texts])
  | _, _ => Raise AttributeError
  end.

(** ** [Decoder.decode] *)

(** The address annotation shared by three of the layouts. *)
Definition target_address (b2 b1 : Z) : string :=
  "Target address: 0x" +:+ fmt_x 4 (Z.shiftl b2 8 + b1).

(** The four field layouts, entered when [self.bytes] has at least two
    entries and [self.bytes[0]] is the opcode named. *)

(** [0x0f == self.bytes[0]]: Write scratchpad. *)
Definition write_scratchpad (ss es : Z) : M unit :=
  (n ← len_bytes;
   if 2 =? n then set_ss ss
   else if 3 =? n then
     (set_es es;;
      b2 ← bytes_at 2; b1 ← bytes_at 1;
      putx ann_addr [target_address b2 b1])
   else if 4 =? n then set_ss ss
   else pass);;
  n ← len_bytes;
  if 4 <=? n then
    (set_es es;;
     bs ← get_bytes;
     putx ann_data ["Data(" +:+ fmt_d (len bs - 3) +:+ "): "
                    +:+ join " " (fmt_x 2 <$> slice_from 3 bs)])
  else pass.

(** [0xaa == self.bytes[0]]: Read scratchpad. *)
Definition read_scratchpad (ss es : Z) : M unit :=
  (n ← len_bytes;
   if 2 =? n then set_ss ss
   else if 3 =? n then
     (set_es es;;
      b2 ← bytes_at 2; b1 ← bytes_at 1;
      putx ann_addr [target_address b2 b1])
   else if 4 =? n then
     (q ← lift (int_truediv_4 (es - ss));
      let tmp := ss + q * 3 in
      set_ss ss;; set_es tmp;;
      b3 ← bytes_at 3;
      putx ann_end ["Ending Offset: " +:+ fmt_d (Z.land b3 0x3f)];;
      set_ss tmp;; set_es es;;
      b3 ← bytes_at 3;
      putx ann_stat ["Data status: "
                     +:+ (if Z.land b3 0xc0 =? 0 then "OK" else "Err")])
   else if 5 =? n then set_ss ss
   else pass);;
  n ← len_bytes;
  if 5 <=? n then
    (set_es es;;
     bs ← get_bytes;
     putx 0 ["Data(" +:+ fmt_d (len bs - 4) +:+ "): "
             +:+ join " " (fmt_x 2 <$> slice_from 4 bs)])
  else pass.

(** [0x99 == self.bytes[0]]: Copy Scratchpad with Password. *)
Definition copy_scratchpad (ss es : Z) : M unit :=
  n ← len_bytes;
  if 2 =? n then set_ss ss
  else if 4 =? n then
    (set_es es;;
     bs ← get_bytes;
     putx 0 ["Authorization pattern (TA1, TA2, E/S): "
             +:+ join ", " (fmt_hash_x 4 <$> slice 1 4 bs)])
  else if 5 =? n then set_ss ss
  else if 12 =? n then
    (set_es es;;
     bs ← get_bytes;
     putx ann_pwd ["Full Access Password: "
                   +:+ join " " (fmt_x 2 <$> slice_from 4 bs)])
  else if 13 =? n then
    (set_ss ss;; set_es es;;
     x ← bytes_at (-1);
     if 0xaa =? x then putx ann_succ ["Operation Succeeded"; "Success"; "S"]
     else
       (y ← bytes_at (-1);
        if 0x55 =? y then putx ann_succ ["Operation Succeeded"; "Success"; "S"]
        else putx ann_fail ["Operation Failed"; "Failed"; "F"]))
  else pass.

(** [0x69 == self.bytes[0]]: Read Memory with Password. *)
Definition read_memory (ss es : Z) : M unit :=
  (n ← len_bytes;
   if 2 =? n then set_ss ss
   else if 3 =? n then
     (set_es es;;
      b2 ← bytes_at 2; b1 ← bytes_at 1;
      putx ann_addr [target_address b2 b1])
   else if 4 =? n then set_ss ss
   else if 11 =? n then
     (set_es es;;
      bs ← get_bytes;
      putx ann_pwd ["Read Access Password: "
                    +:+ join " " (fmt_x 2 <$> slice_from 3 bs)])
   else if 12 =? n then set_ss ss
   else pass);;
  n ← len_bytes;
  if 12 <=? n then
    (set_es es;;
     bs ← get_bytes;
     putx ann_data ["Data(" +:+ fmt_d (len bs - 11) +:+ "): "
                    +:+ join " " (fmt_x 2 <$> slice_from 11 bs)])
  else pass.

(** The note on the family code inside the most verbose [ROM] text. *)
Definition family_note (fc : Z) (fam : string) : string :=
  if fc =? 0x37
  then "is 0x" +:+ fmt_x 2 fc +:+ ", " +:+ fam +:+ " detected"
  else "0x" +:+ fmt_x 2 fc +:+ " unknown".

(** [decode(self, ss, es, data)] with [data = (code, val)]; the three codes
    of the input are the constructors of [event]. *)
Definition decode (ss es : Z) (data : event) : M unit :=
  match data with
  | RESET_PRESENCE val =>
      set_ss ss;; set_es es;;
      putx ann_reset ["Reset/Presence: " +:+ (if val then "true" else "false")];;
      set_bytes []
  | ROM val =>
      set_ss ss;; set_es es;;
      let fc := Z.land val 0xff in
      set_family_code fc;;
      fam ← get_family;
      let s := family_note fc fam in
      putx ann_rom
        [ "ROM: 0x" +:+ fmt_x 16 val +:+ " (" +:+ ("family code " +:+ s) +:+ ")";
          "ROM: 0x" +:+ fmt_x 16 val +:+ " (" +:+ fam +:+ ")";
          "ROM: 0x" +:+ fmt_x 16 val ];;
      set_bytes []
  | DATA val =>
      append_bytes val;;
      n ← len_bytes;
      if 1 =? n then
        (set_ss ss;; set_es es;;
         cs ← get_commands;
         if decide (cs !! val = None) then
           putx ann_err ["Unrecognized command: 0x" +:+ fmt_x 2 val]
         else
           (names ← commands_at val;
            putx ann_cmd names))
      else
        (b ← bytes_at 0;
         if 0x0f =? b then write_scratchpad ss es
         else
           (b ← bytes_at 0;
            if 0xaa =? b then read_scratchpad ss es
            else
              (b ← bytes_at 0;
               if 0x99 =? b then copy_scratchpad ss es
               else
                 (b ← bytes_at 0;
                  if 0x69 =? b then read_memory ss es
                  else pass))))
  end.

(** ** Running the decoder over a stream of events *)

(** One call of the host: the interval and the event. *)
Definition call : Type := Z * Z * event.

(** The host calls [decode] once per event, in order; the result is the final
    decoder and, per call, the annotations that call emitted. *)
Fixpoint run (cs : list call) (d : Decoder)
  : result (Decoder * list (list annotation)) :=
  match cs with
  | [] => Ok (d, [])
  | (s, e, ev) :: cs =>
      match decode s e ev d with
      | Raise x => Raise x
      | Ok (_, d1, o) =>
          match run cs d1 with
          | Raise x => Raise x
          | Ok (d2, os) => Ok (d2, o :: os)
          end
      end
  end.

(** A run of [DATA] bytes, each with its interval. *)
Definition data_calls (l : list (Z * Z * Z)) : list call :=
  (λ x, (x.1.1, x.1.2, DATA x.2)) <$> l.

(** What the calls emitted, call by call; [None] if one of them raised. *)
Definition emitted (cs : list call) (d : Decoder) : option (list (list annotation)) :=
  match run cs d with
  | Ok (_, os) => Some os
  | Raise _ => None
  end.

(** What the last of the calls emitted. *)
Definition last_emitted (cs : list call) (d : Decoder) : option (list annotation) :=
  emitted cs d ≫= last.

(** The bytes of a run of [DATA] calls. *)
Definition vals (l : list (Z * Z * Z)) : list Z := snd <$> l.

(** ** Vocabulary of the statements *)

(** The annotation of the first byte of a transaction. *)
Definition opcode_annotation (cs : gmap Z (list string)) (s e v : Z) : annotation :=
  match cs !! v with
  | None => Put s e ann_err ["Unrecognized command: 0x" +:+ fmt_x 2 v]
  | Some names => Put s e ann_cmd names
  end.

(** Opcodes for which [decode] has a branch, and those among them whose
    layout starts with a target address. *)
Definition has_layout (op : Z) : Prop :=
  op = 0x0f ∨ op = 0xaa ∨ op = 0x99 ∨ op = 0x69.
Definition has_address (op : Z) : Prop :=
  op = 0x0f ∨ op = 0xaa ∨ op = 0x69.

(** Both interval attributes of the decoder object exist. *)
Definition assigned (d : Decoder) : Prop := is_Some (ss d) ∧ is_Some (es d).

(** The events that separate transactions. *)
Definition is_boundary (ev : event) : bool :=
  match ev with
  | RESET_PRESENCE _ | ROM _ => true
  | DATA _ => false
  end.

(** Well-formed input, as far as the types of the events leave it open: an
    interval does not end before it starts. *)
Definition wf_call (c : call) : Prop :=
  let '(s, e, _) := c in s ≤ e.

(** The length of the interval is within what [int((es - ss) / 4)] can take;
    every pair of unsigned 64-bit sample numbers is. *)
Definition fits_float (c : call) : Prop :=
  let '(s, e, _) := c in e - s < 2 ^ 1025.

(** A character occurs in a string; a string occurs inside another. *)
Fixpoint occurs (c : ascii) (s : string) : Prop :=
  match s with
  | EmptyString => False
  | String c' s => c = c' ∨ occurs c s
  end.

Definition contains (t s : string) : Prop := ∃ pre post, s = pre +:+ t +:+ post.

(** [t] is [n] written with exactly two lower-case hexadecimal digits. *)
Definition two_hex_digits (t : string) (n : Z) : Prop :=
  ∃ hi lo, t = String hi (String lo "")
           ∧ occurs hi "0123456789abcdef" ∧ occurs lo "0123456789abcdef"
           ∧ hex_value t = Z.to_N n.

(** The names of the six opcodes, as the table lists them. *)
Definition table_names : list (Z * string * string) :=
  [ (0x0f, "Write Scratchpad", "WR Sc");
    (0xaa, "Read Scratchpad", "RD Sc");
    (0x99, "Copy Scratchpad with Password", "WR Mem");
    (0x69, "Read Memory with Password", "RD Mem");
    (0xc3, "Verify Password", "Verify Pwd");
    (0xcc, "Read Version Command", "RD Ver") ].

(** ** Inputs used as instances *)

(** The opcodes of [commands_1977]. *)
Definition table_opcodes : list Z := [0x0f; 0xaa; 0x99; 0x69; 0xc3; 0xcc].

(** A decoder in the middle of a Write Scratchpad transaction. *)
Definition mid_transaction : Decoder :=
  {| bytes := [0x0f; 0x10; 0x20; 0xaa; 0xbb]; family_code := None;
     family := "DS1977"; commands := commands_1977;
     ss := Some 30; es := Some 50 |}.

(** Twelve bytes of a Copy Scratchpad transaction: opcode, authorization
    pattern, password. *)
Definition copy_prefix : list (Z * Z * Z) :=
  [(0, 1, 0x99); (1, 2, 0x10); (2, 3, 0x20); (3, 4, 0x1f);
   (4, 5, 1); (5, 6, 2); (6, 7, 3); (7, 8, 4); (8, 9, 5);
   (9, 10, 6); (10, 11, 7); (11, 12, 8)].

(** ** A weakest-precondition reading of the monad

    [returns m d Q]: run from [d], the computation [m] raises nothing and
    its value, final decoder and emitted annotations satisfy [Q]. *)

Definition returns {A} (m : M A) (d : Decoder)
    (Q : A → Decoder → list annotation → Prop) : Prop :=
  match m d with
  | Ok (a, d', o) => Q a d' o
  | Raise _ => False
  end.

(** [ensures m d Q]: if [m] returns from [d], its value, final decoder and
    emitted annotations satisfy [Q]. *)
Definition ensures {A} (m : M A) (d : Decoder)
    (Q : A → Decoder → list annotation → Prop) : Prop :=
  match m d with
  | Ok (a, d', o) => Q a d' o
  | Raise _ => True
  end.

(** The class of an annotation is one of the declared ones, and not [crc]. *)
Definition declared_not_crc (a : annotation) : Prop :=
  0 ≤ a_cls a < len annotations ∧ a_cls a ≠ ann_crc.

(** * Examples *)

Example write_scratchpad_example :
  run (data_calls [(0, 10, 0x0f); (10, 20, 0x10); (20, 30, 0x20);
                   (30, 40, 0xaa); (40, 50, 0xbb)]) init
  = Ok ({| bytes := [0x0f; 0x10; 0x20; 0xaa; 0xbb]; family_code := None;
           family := "DS1977"; commands := commands_1977;
           ss := Some 30; es := Some 50 |},
        [ [Put 0 10 ann_cmd ["Write Scratchpad"; "WR Sc"]];
          [];
          [Put 10 30 ann_addr ["Target address: 0x2010"]];
          [Put 30 40 ann_data ["Data(1): aa"]];
          [Put 30 50 ann_data ["Data(2): aa bb"]] ]).
Proof. vm_compute. reflexivity. Qed.

Example read_scratchpad_example :
  run (data_calls [(0, 10, 0xaa); (10, 20, 0x00); (20, 30, 0x00);
                   (1000, 1100, 0x45); (1100, 1200, 0x07)]) init
  = Ok ({| bytes := [0xaa; 0x00; 0x00; 0x45; 0x07]; family_code := None;
           family := "DS1977"; commands := commands_1977;
           ss := Some 1100; es := Some 1200 |},
        [ [Put 0 10 ann_cmd ["Read Scratchpad"; "RD Sc"]];
          [];
          [Put 10 30 ann_addr ["Target address: 0x0000"]];
          [Put 1000 1075 ann_end ["Ending Offset: 5"];
           Put 1075 1100 ann_stat ["Data status: Err"]];
          [Put 1100 1200 ann_data ["Data(1): 07"]] ]).
Proof. vm_compute. reflexivity. Qed.

Example boundary_example :
  run [(0, 5, RESET_PRESENCE true); (5, 70, ROM 0x2d00000012345637);
       (70, 80, DATA 0x42); (90, 95, ROM 0x01000000000000a5)] init
  = Ok ({| bytes := []; family_code := Some 0xa5;
           family := "DS1977"; commands := commands_1977;
           ss := Some 90; es := Some 95 |},
        [ [Put 0 5 ann_reset ["Reset/Presence: true"]];
          [Put 5 70 ann_rom
             ["ROM: 0x2d00000012345637 (family code is 0x37, DS1977 detected)";
              "ROM: 0x2d00000012345637 (DS1977)";
              "ROM: 0x2d00000012345637"]];
          [Put 70 80 ann_err ["Unrecognized command: 0x42"]];
          [Put 90 95 ann_rom
             ["ROM: 0x01000000000000a5 (family code 0xa5 unknown)";
              "ROM: 0x01000000000000a5 (DS1977)";
              "ROM: 0x01000000000000a5"]] ]).
Proof. vm_compute. reflexivity. Qed.

Example copy_scratchpad_example :
  run (data_calls [(0, 1, 0x99); (1, 2, 0x10); (2, 3, 0x20); (3, 4, 0x1f);
                   (4, 5, 1); (5, 6, 2); (6, 7, 3); (7, 8, 4); (8, 9, 5);
                   (9, 10, 6); (10, 11, 7); (11, 12, 8); (12, 13, 0x55);
                   (13, 14, 0xaa)]) init
  = Ok ({| bytes := [0x99; 0x10; 0x20; 0x1f; 1; 2; 3; 4; 5; 6; 7; 8; 0x55; 0xaa];
           family_code := None;
           family := "DS1977"; commands := commands_1977;
           ss := Some 12; es := Some 13 |},
        [ [Put 0 1 ann_cmd ["Copy Scratchpad with Password"; "WR Mem"]];
          []; [];
          [Put 1 4 0 ["Authorization pattern (TA1, TA2, E/S): 0x10, 0x20, 0x1f"]];
          []; []; []; []; []; []; [];
          [Put 4 12 ann_pwd ["Full Access Password: 01 02 03 04 05 06 07 08"]];
          [Put 12 13 ann_succ ["Operation Succeeded"; "Success"; "S"]];
          [] ]).
Proof. vm_compute. reflexivity. Qed.

Example int_truediv_4_examples :
  int_truediv_4 100 = Ok 25 ∧ int_truediv_4 103 = Ok 25 ∧
  int_truediv_4 (-7) = Ok (-1) ∧
  int_truediv_4 (2 ^ 53 + 1) = Ok (2 ^ 51) ∧
  int_truediv_4 (2 ^ 53 + 3) = Ok (2 ^ 51 + 1) ∧
  int_truediv_4 (2 ^ 1026 - 2 ^ 972 - 1) = Ok (2 ^ 1024 - 2 ^ 971) ∧
  int_truediv_4 (2 ^ 1026 - 2 ^ 972) = Raise OverflowError.
Proof. vm_compute. repeat split; reflexivity. Qed.

(** * Reasoning about [decode] *)

(** ** Lists and indexing *)

Lemma len_snoc {A} (l : list A) (x : A) : len (l ++ [x]) = len l + 1.
Proof. unfold len. rewrite length_app. simpl. lia. Qed.

Lemma len_cons {A} (x : A) (l : list A) : len (x :: l) = len l + 1.
Proof. unfold len. simpl. lia. Qed.

Lemma len_nil {A} : len (@nil A) = 0.
Proof. reflexivity. Qed.

Lemma len_nonneg {A} (l : list A) : 0 ≤ len l.
Proof. unfold len. lia. Qed.

Lemma len_zero_nil {A} (l : list A) : len l = 0 → l = [].
Proof. destruct l as [|x l]; [done | rewrite len_cons; pose proof (len_nonneg l); lia]. Qed.

(** A check of all values below a bound, by evaluation. *)
Lemma forall_below (P : Z → bool) (n : Z) :
  forallb P (seqZ 0 n) = true → ∀ r, 0 ≤ r < n → P r = true.
Proof.
  intros H r Hr. rewrite forallb_forall in H. apply H.
  apply list_elem_of_In, elem_of_seqZ. lia.
Qed.

(** An index inside the list never raises. *)
Lemma getitem_in_range (l : list Z) (i : Z) :
  0 ≤ i < len l → ∃ x, getitem l i = Ok x ∧ l !! Z.to_nat i = Some x.
Proof.
  intros [Hi Hl]. unfold getitem.
  destruct (Z.ltb_spec i 0) as [|_]; [lia |].
  destruct (Z.ltb_spec i 0) as [|_]; [lia |].
  destruct (l !! Z.to_nat i) as [x|] eqn:E; [eauto |].
  apply lookup_ge_None in E. unfold len in Hl. lia.
Qed.

Lemma getitem_lookup (l : list Z) (i : nat) (x : Z) :
  l !! i = Some x → getitem l (Z.of_nat i) = Ok x.
Proof.
  intros E. unfold getitem.
  destruct (Z.ltb_spec (Z.of_nat i) 0) as [|_]; [lia |].
  destruct (Z.ltb_spec (Z.of_nat i) 0) as [|_]; [lia |].
  rewrite Nat2Z.id, E. reflexivity.
Qed.

(** [l[-1]] of a list that was just appended to. *)
Lemma getitem_last (l : list Z) (v : Z) : getitem (l ++ [v]) (-1) = Ok v.
Proof.
  unfold getitem. change (-1 <? 0) with true. cbv iota.
  rewrite len_snoc. pose proof (len_nonneg l).
  destruct (Z.ltb_spec (-1 + (len l + 1)) 0) as [|_]; [lia |].
  replace (Z.to_nat (-1 + (len l + 1))) with (length l) by (unfold len; lia).
  rewrite list_lookup_middle by done. reflexivity.
Qed.

(** ** Rules of the weakest-precondition reading *)

Lemma returns_eq {A} (m : M A) (d : Decoder) (x : A * Decoder * list annotation) :
  returns m d (λ a d' o, (a, d', o) = x) ↔ m d = Ok x.
Proof.
  unfold returns. destruct (m d) as [[[a d'] o]|e]; split; intros H;
    try congruence; try done.
Qed.

Lemma returns_impl {A} (m : M A) d (Q Q' : A → Decoder → list annotation → Prop) :
  returns m d Q → (∀ a d' o, Q a d' o → Q' a d' o) → returns m d Q'.
Proof. unfold returns. destruct (m d) as [[[a d'] o]|e]; eauto. Qed.

Lemma returns_bind {A B} (m : M A) (f : A → M B) d Q :
  returns m d (λ a d1 o1, returns (f a) d1 (λ b d2 o2, Q b d2 (o1 ++ o2))) →
  returns (m ≫= f) d Q.
Proof.
  unfold returns, mbind, M_bind.
  destruct (m d) as [[[a d1] o1]|e]; [| done].
  destruct (f a d1) as [[[b d2] o2]|e]; done.
Qed.

Lemma returns_ret {A} (a : A) d Q : Q a d [] → returns (mret a) d Q.
Proof. done. Qed.

Lemma returns_pass d Q : Q () d [] → returns pass d Q.
Proof. done. Qed.

Lemma returns_lift {A} (r : result A) (a : A) d Q :
  r = Ok a → Q a d [] → returns (lift r) d Q.
Proof. intros ->. done. Qed.

Lemma returns_get_bytes d Q : Q (bytes d) d [] → returns get_bytes d Q.
Proof. done. Qed.

Lemma returns_get_family d Q : Q (family d) d [] → returns get_family d Q.
Proof. done. Qed.

Lemma returns_get_commands d Q : Q (commands d) d [] → returns get_commands d Q.
Proof. done. Qed.

Lemma returns_set_bytes l d Q : Q () (with_bytes l d) [] → returns (set_bytes l) d Q.
Proof. done. Qed.

Lemma returns_set_family_code c d Q :
  Q () (with_family_code c d) [] → returns (set_family_code c) d Q.
Proof. done. Qed.

Lemma returns_set_ss t d Q : Q () (with_ss t d) [] → returns (set_ss t) d Q.
Proof. done. Qed.

Lemma returns_set_es t d Q : Q () (with_es t d) [] → returns (set_es t) d Q.
Proof. done. Qed.

Lemma returns_append_bytes v d Q :
  Q () (with_bytes (bytes d ++ [v]) d) [] → returns (append_bytes v) d Q.
Proof. done. Qed.

Lemma returns_len_bytes d Q : Q (len (bytes d)) d [] → returns len_bytes d Q.
Proof. done. Qed.

Lemma returns_bytes_at i x d Q :
  getitem (bytes d) i = Ok x → Q x d [] → returns (bytes_at i) d Q.
Proof.
  intros E HQ. unfold returns, bytes_at, mbind, M_bind, get_bytes, lift.
  rewrite E. done.
Qed.

Lemma returns_commands_at v names d Q :
  commands d !! v = Some names → Q names d [] → returns (commands_at v) d Q.
Proof.
  intros E HQ. unfold returns, commands_at, mbind, M_bind, get_commands.
  rewrite E. done.
Qed.

(** [putx] needs both interval attributes to exist. *)
Lemma returns_putx cls texts s e d Q :
  ss d = Some s → es d = Some e → Q () d [Put s e cls texts] →
  returns (putx cls texts) d Q.
Proof. intros Hs He HQ. unfold returns, putx. rewrite Hs, He. done. Qed.

(** ** Symbolic execution *)

Ltac state_simpl :=
  cbn [bytes ss es commands family family_code
       with_bytes with_ss with_es with_family_code] in *.

(** Turn the boolean tests met along a path into arithmetic facts. *)
Ltac tests_to_facts :=
  repeat match goal with
    | H : (_ =? _) = true |- _ => apply Z.eqb_eq in H
    | H : (_ =? _) = false |- _ => apply Z.eqb_neq in H
    | H : (_ <=? _) = true |- _ => apply Z.leb_le in H
    | H : (_ <=? _) = false |- _ => apply Z.leb_gt in H
    end.

Ltac len_facts :=
  tests_to_facts; state_simpl;
  repeat rewrite len_snoc in *; repeat rewrite len_cons in *;
  repeat rewrite len_nil in *;
  repeat match goal with
    | H : context [len ?l] |- _ =>
        lazymatch goal with
        | _ : 0 ≤ len l |- _ => fail
        | _ => pose proof (len_nonneg l)
        end
    | |- context [len ?l] =>
        lazymatch goal with
        | _ : 0 ≤ len l |- _ => fail
        | _ => pose proof (len_nonneg l)
        end
    end.

(** One statement of the body. *)
Ltac step :=
  state_simpl;
  lazymatch goal with
  | |- returns (mbind _ _) _ _ => apply returns_bind
  | |- returns (mret _) _ _ => apply returns_ret
  | |- returns pass _ _ => apply returns_pass
  | |- returns (set_ss _) _ _ => apply returns_set_ss
  | |- returns (set_es _) _ _ => apply returns_set_es
  | |- returns (set_bytes _) _ _ => apply returns_set_bytes
  | |- returns (set_family_code _) _ _ => apply returns_set_family_code
  | |- returns (append_bytes _) _ _ => apply returns_append_bytes
  | |- returns len_bytes _ _ => apply returns_len_bytes
  | |- returns get_bytes _ _ => apply returns_get_bytes
  | |- returns get_family _ _ => apply returns_get_family
  | |- returns get_commands _ _ => apply returns_get_commands
  | |- returns (putx _ _) _ _ =>
      eapply returns_putx; [state_simpl; eassumption || reflexivity ..|]
  | |- returns (bytes_at (-1)) _ _ =>
      eapply returns_bytes_at; [state_simpl; apply getitem_last |]
  | |- returns (bytes_at ?i) ?d _ =>
      let x := fresh "x" in
      let Hx := fresh "Hx" in
      let Hl := fresh "Hl" in
      destruct (getitem_in_range (bytes d) i) as (x & Hx & Hl);
      [ len_facts; lia
      | simpl in Hl; try (injection Hl as <-);
        eapply returns_bytes_at; [exact Hx |] ]
  | |- returns (if ?c then _ else _) _ _ => destruct c eqn:?
  end;
  cbv beta.

(** Steps along the feasible paths: a branch whose test contradicts the
    known length or opcode is discarded. *)
Ltac infeasible := exfalso; len_facts; (lia || congruence).
Ltac path := repeat (step; try infeasible).

Ltac finish :=
  state_simpl; cbv [with_bytes with_ss with_es with_family_code];
  state_simpl; cbn [app]; try reflexivity.

Ltac layouts :=
  repeat match goal with
    | H : has_layout _ |- _ => destruct H as [-> | [-> | [-> | ->]]]
    | H : has_address _ |- _ => destruct H as [-> | [-> | ->]]
    end.

Ltac run_decode :=
  apply returns_eq;
  unfold decode, write_scratchpad, read_scratchpad, copy_scratchpad, read_memory;
  path.

(** ** Boundary events *)

Lemma decode_reset (d : Decoder) (s e : Z) (val : bool) :
  decode s e (RESET_PRESENCE val) d
  = Ok ((), with_bytes [] (with_es e (with_ss s d)),
        [Put s e ann_reset
           ["Reset/Presence: " +:+ (if val then "true" else "false")]]).
Proof. apply returns_eq. unfold decode. path. finish. Qed.

Lemma decode_rom (d : Decoder) (s e val : Z) :
  decode s e (ROM val) d
  = Ok ((), with_bytes []
              (with_family_code (Z.land val 0xff) (with_es e (with_ss s d))),
        [Put s e ann_rom
           [ "ROM: 0x" +:+ fmt_x 16 val +:+ " (" +:+
               ("family code " +:+ family_note (Z.land val 0xff) (family d))
               +:+ ")";
             "ROM: 0x" +:+ fmt_x 16 val +:+ " (" +:+ family d +:+ ")";
             "ROM: 0x" +:+ fmt_x 16 val ]]).
Proof. apply returns_eq. unfold decode. path. finish. Qed.

(** ** The first byte of a transaction *)

Lemma decode_first (d : Decoder) (s e v : Z) :
  bytes d = [] →
  decode s e (DATA v) d
  = Ok ((), with_es e (with_ss s (with_bytes [v] d)),
        [opcode_annotation (commands d) s e v]).
Proof.
  destruct d as [bs fc fam cms s0 e0]. cbn [bytes]. intros ->.
  apply returns_eq. unfold decode, opcode_annotation. state_simpl.
  destruct (cms !! v) as [names|] eqn:E; path.
  - eapply returns_commands_at; [exact E |]. path. finish.
  - finish.
Qed.

(** ** Opcodes without a field layout *)

Lemma decode_no_layout (d : Decoder) (s e v op : Z) (rest : list Z) :
  bytes d = op :: rest → ¬ has_layout op →
  decode s e (DATA v) d = Ok ((), with_bytes (bytes d ++ [v]) d, []).
Proof.
  destruct d as [bs fc fam cms s0 e0]. cbn [bytes]. intros -> Hop.
  assert (op ≠ 0x0f ∧ op ≠ 0xaa ∧ op ≠ 0x99 ∧ op ≠ 0x69) as (H1 & H2 & H3 & H4)
    by (unfold has_layout in Hop; repeat split; intros ->; apply Hop; auto).
  run_decode. finish.
Qed.

(** ** The four field layouts *)

(** Second byte: every layout only notes where the next field starts. *)
Lemma decode_second (d : Decoder) (s e v op : Z) :
  bytes d = [op] → has_layout op →
  decode s e (DATA v) d = Ok ((), with_ss s (with_bytes [op; v] d), []).
Proof.
  destruct d as [bs fc fam cms s0 e0]. cbn [bytes]. intros -> Hop.
  layouts; run_decode; finish.
Qed.

(** Third byte of the layouts that carry a target address. *)
Lemma decode_address (d : Decoder) (s e b1 b2 op s2 : Z) :
  bytes d = [op; b1] → ss d = Some s2 → has_address op →
  decode s e (DATA b2) d
  = Ok ((), with_es e (with_bytes [op; b1; b2] d),
        [Put s2 e ann_addr [target_address b2 b1]]).
Proof.
  destruct d as [bs fc fam cms s0 e0]. cbn [bytes ss]. intros -> -> Hop.
  layouts; run_decode; finish.
Qed.

(** Write Scratchpad, fourth byte: the payload view starts here. *)
Lemma decode_write_data_first (d : Decoder) (s e b1 b2 v : Z) :
  bytes d = [0x0f; b1; b2] →
  decode s e (DATA v) d
  = Ok ((), with_es e (with_ss s (with_bytes [0x0f; b1; b2; v] d)),
        [Put s e ann_data
           ["Data(" +:+ fmt_d 1 +:+ "): " +:+ join " " (fmt_x 2 <$> [v])]]).
Proof.
  destruct d as [bs fc fam cms s0 e0]. cbn [bytes]. intros ->.
  run_decode; finish.
Qed.

(** Write Scratchpad, any later byte: the view grows, its start stays. *)
Lemma decode_write_data_next (d : Decoder) (s e v s4 : Z) (rest : list Z) :
  bytes d = 0x0f :: rest → 4 ≤ len (bytes d) → ss d = Some s4 →
  decode s e (DATA v) d
  = Ok ((), with_es e (with_bytes (bytes d ++ [v]) d),
        [Put s4 e ann_data
           ["Data(" +:+ fmt_d (len (bytes d ++ [v]) - 3) +:+ "): "
            +:+ join " " (fmt_x 2 <$> slice_from 3 (bytes d ++ [v]))]]).
Proof.
  destruct d as [bs fc fam cms s0 e0]. cbn [bytes ss]. intros -> Hn ->.
  run_decode; finish.
Qed.

(** Read Scratchpad, fourth byte: the interval of the byte is split. *)
Lemma decode_read_status (d : Decoder) (s e b1 b2 v q : Z) :
  bytes d = [0xaa; b1; b2] → int_truediv_4 (e - s) = Ok q →
  decode s e (DATA v) d
  = Ok ((), with_es e (with_ss (s + q * 3) (with_bytes [0xaa; b1; b2; v] d)),
        [ Put s (s + q * 3) ann_end
            ["Ending Offset: " +:+ fmt_d (Z.land v 0x3f)];
          Put (s + q * 3) e ann_stat
            ["Data status: " +:+ (if Z.land v 0xc0 =? 0 then "OK" else "Err")] ]).
Proof.
  destruct d as [bs fc fam cms s0 e0]. cbn [bytes]. intros -> Hq.
  run_decode. eapply returns_lift; [exact Hq |]. path. finish.
Qed.

(** The same byte when the division overflows: the call raises. *)
Lemma decode_read_status_overflow (d : Decoder) (s e b1 b2 v : Z) :
  bytes d = [0xaa; b1; b2] → int_truediv_4 (e - s) = Raise OverflowError →
  decode s e (DATA v) d = Raise OverflowError.
Proof.
  destruct d as [bs fc fam cms s0 e0]. cbn [bytes]. intros -> Hq.
  unfold decode, read_scratchpad.
  cbv [mbind M_bind append_bytes len_bytes get_bytes set_bytes bytes_at
       mret M_ret lift with_bytes bytes].
  rewrite Hq. reflexivity.
Qed.

(** Copy Scratchpad, third byte: nothing happens. *)
Lemma decode_copy_third (d : Decoder) (s e b1 v : Z) :
  bytes d = [0x99; b1] →
  decode s e (DATA v) d = Ok ((), with_bytes [0x99; b1; v] d, []).
Proof.
  destruct d as [bs fc fam cms s0 e0]. cbn [bytes]. intros ->.
  run_decode; finish.
Qed.

(** Copy Scratchpad, fourth byte. *)
Lemma decode_copy_pattern (d : Decoder) (s e b1 b2 v s2 : Z) :
  bytes d = [0x99; b1; b2] → ss d = Some s2 →
  decode s e (DATA v) d
  = Ok ((), with_es e (with_bytes [0x99; b1; b2; v] d),
        [Put s2 e 0
           ["Authorization pattern (TA1, TA2, E/S): "
            +:+ join ", " (fmt_hash_x 4 <$> [b1; b2; v])]]).
Proof.
  destruct d as [bs fc fam cms s0 e0]. cbn [bytes ss]. intros -> ->.
  run_decode; finish.
Qed.

(** Copy Scratchpad, thirteenth byte. *)
Lemma decode_copy_result (d : Decoder) (s e v : Z) (rest : list Z) :
  bytes d = 0x99 :: rest → len (bytes d) = 12 →
  decode s e (DATA v) d
  = Ok ((), with_es e (with_ss s (with_bytes (bytes d ++ [v]) d)),
        [ if decide (v = 0xaa ∨ v = 0x55)
          then Put s e ann_succ ["Operation Succeeded"; "Success"; "S"]
          else Put s e ann_fail ["Operation Failed"; "Failed"; "F"] ]).
Proof.
  destruct d as [bs fc fam cms s0 e0]. cbn [bytes]. intros -> Hn.
  run_decode; finish; tests_to_facts; case_decide;
    (reflexivity || (exfalso; lia)).
Qed.

(** ** No exception on a data byte *)

(** The only arithmetic that can raise is the division on the fourth byte
    of a Read Scratchpad transaction. *)
Lemma decode_data_safe (d : Decoder) (s e v : Z) :
  bytes d = [] ∨ assigned d →
  (bytes d !! 0%nat = Some 0xaa → len (bytes d) = 3 →
   ∃ q, int_truediv_4 (e - s) = Ok q) →
  returns (decode s e (DATA v)) d
    (λ _ d' _, bytes d' = bytes d ++ [v] ∧ assigned d'
               ∧ commands d' = commands d ∧ family d' = family d).
Proof.
  intros Hd Hq.
  destruct (bytes d) as [|b0 rest] eqn:Hb.
  - pose proof (decode_first d s e v Hb) as E. unfold returns. rewrite E.
    state_simpl. repeat split; eauto.
  - destruct Hd as [? | [[s0 Hs] [e0 He]]]; [done |].
    destruct d as [bs fc fam cms os oe]. cbn [bytes ss es] in Hb, Hs, He. subst.
    unfold decode, write_scratchpad, read_scratchpad, copy_scratchpad, read_memory.
    destruct (cms !! v) as [names|] eqn:E;
      repeat (first [ step
                    | eapply returns_commands_at; [exact E |]
                    | lazymatch goal with
                      | |- returns (lift (int_truediv_4 _)) _ _ =>
                          let q := fresh "q" in
                          let Hq' := fresh "Hq" in
                          destruct Hq as [q Hq'];
                          [ tests_to_facts; simpl; congruence
                          | len_facts; lia
                          | eapply returns_lift; [exact Hq' |] ]
                      end ];
              try infeasible).
    all: finish. all: repeat split; eauto.
Qed.

(** ** The hexadecimal printer *)

Lemma hex_digit_value_char (d : N) :
  (d < 16)%N → hex_digit_value (hex_char d) = d.
Proof.
  intros Hd. destruct d as [|p]; [reflexivity |].
  do 4 (destruct p as [p|p|]; try reflexivity); lia.
Qed.

Lemma size_nat_bound (x : N) : (x < 2 ^ N.of_nat (N.size_nat x))%N.
Proof.
  destruct x as [|p]; [reflexivity |]. simpl N.size_nat.
  induction p as [p IH|p IH|].
  - change (Pos.size_nat p~1) with (S (Pos.size_nat p)).
    rewrite Nat2N.inj_succ, N.pow_succ_r'. lia.
  - change (Pos.size_nat p~0) with (S (Pos.size_nat p)).
    rewrite Nat2N.inj_succ, N.pow_succ_r'. lia.
  - reflexivity.
Qed.

(** The recursion of [hex_go] is long enough: it prints all of [x]. *)
Lemma hex_go_value (fuel : nat) (x : N) (s : string) :
  (x < 2 ^ N.of_nat fuel)%N →
  hex_value (hex_go fuel x s) = hex_value_from x s.
Proof.
  revert x s. induction fuel as [|fuel IH]; intros x s Hx.
  - simpl in *. replace x with 0%N by lia. reflexivity.
  - simpl hex_go. case_decide as E; [subst; reflexivity |].
    rewrite IH.
    + simpl. rewrite hex_digit_value_char by (apply N.mod_lt; lia).
      f_equal. rewrite (N.div_mod x 16) at 3 by lia. lia.
    + rewrite Nat2N.inj_succ, N.pow_succ_r' in Hx.
      apply N.Div0.div_lt_upper_bound. lia.
Qed.

(** Reading back what [hex] printed gives the number. *)
Lemma hex_value_hex (x : N) : hex_value (hex x) = x.
Proof.
  unfold hex. case_decide as E; [subst; reflexivity |].
  rewrite hex_go_value by apply size_nat_bound. reflexivity.
Qed.

Lemma hex_char_occurs (d : N) : occurs (hex_char d) "0123456789abcdef".
Proof. unfold hex_char. repeat case_match; simpl; tauto. Qed.

(** A byte is printed by ['%02x'] as its two hexadecimal digits. *)
Lemma fmt_x_byte (n : Z) :
  0 ≤ n < 256 →
  fmt_x 2 n = String (hex_char (Z.to_N n `div` 16))
                (String (hex_char (Z.to_N n `mod` 16)) "").
Proof.
  intros Hn. apply String.eqb_eq.
  apply (forall_below
           (λ n, (fmt_x 2 n =? String (hex_char (Z.to_N n `div` 16))
                                 (String (hex_char (Z.to_N n `mod` 16)) ""))%string)
           256); [| exact Hn].
  vm_compute. reflexivity.
Qed.

Lemma fmt_x_two_hex_digits (n : Z) : 0 ≤ n < 256 → two_hex_digits (fmt_x 2 n) n.
Proof.
  intros Hn. rewrite (fmt_x_byte n Hn). eexists _, _.
  split; [reflexivity |]. split; [apply hex_char_occurs |].
  split; [apply hex_char_occurs |].
  unfold hex_value. cbn [hex_value_from].
  assert (Z.to_N n < 256)%N by lia.
  rewrite !hex_digit_value_char
    by (first [apply N.mod_lt; lia | apply N.Div0.div_lt_upper_bound; lia]).
  pose proof (N.div_mod (Z.to_N n) 16 ltac:(lia)). lia.
Qed.

(** ** The division by four *)

Lemma round53_exact (a : Z) : 0 ≤ a < 2 ^ 53 → round53 a = a.
Proof.
  intros [H0 H1]. unfold round53.
  assert (Z.log2 a < 53) as Hl.
  { destruct (decide (a = 0)) as [-> | Hne]; [reflexivity |].
    apply Z.log2_lt_pow2; lia. }
  destruct (Z.leb_spec (Z.log2 a - 52) 0); [reflexivity | lia].
Qed.

Lemma round53_bound (a : Z) : 0 ≤ a → round53 a ≤ 2 * a.
Proof.
  intros H0. unfold round53.
  destruct (Z.leb_spec (Z.log2 a - 52) 0) as [|Hk]; [lia |].
  set (k := Z.log2 a - 52) in *.
  assert (0 < a) as Hpos.
  { destruct (decide (a = 0)) as [-> | ?]; [| lia]. subst k. simpl in Hk. lia. }
  rewrite !Z.shiftl_mul_pow2, Z.shiftr_div_pow2 by lia.
  assert (0 < 2 ^ k) as Hp by (apply Z.pow_pos_nonneg; lia).
  assert (2 ^ k ≤ a) as Hle.
  { transitivity (2 ^ Z.log2 a).
    - apply Z.pow_le_mono_r; lia.
    - apply Z.log2_spec. lia. }
  pose proof (Z.mul_div_le a (2 ^ k) Hp) as Hq.
  destruct (_ || _); nia.
Qed.

Lemma int_truediv_4_exact (a : Z) :
  0 ≤ a < 2 ^ 53 → int_truediv_4 a = Ok (a `div` 4).
Proof.
  intros Ha. unfold int_truediv_4.
  rewrite Z.abs_eq by lia. rewrite round53_exact by done.
  destruct (Z.leb_spec (2 ^ 1026) a) as [Hbig|_]; [lia |].
  f_equal. destruct (decide (a = 0)) as [-> | ?]; [reflexivity |].
  rewrite Z.sgn_pos by lia. lia.
Qed.

Lemma int_truediv_4_safe (a : Z) :
  0 ≤ a < 2 ^ 64 → ∃ q, int_truediv_4 a = Ok q.
Proof.
  intros Ha. unfold int_truediv_4.
  rewrite Z.abs_eq by lia. pose proof (round53_bound a ltac:(lia)).
  destruct (Z.leb_spec (2 ^ 1026) (round53 a)) as [Hbig|_]; [lia | eauto].
Qed.

(** The same for every length a float can take. *)
Lemma int_truediv_4_fits (a : Z) :
  0 ≤ a < 2 ^ 1025 → ∃ q, int_truediv_4 a = Ok q.
Proof.
  intros Ha. unfold int_truediv_4.
  rewrite Z.abs_eq by lia. pose proof (round53_bound a ltac:(lia)).
  assert (2 ^ 1026 = 2 * 2 ^ 1025) as E by (change 1026 with (1 + 1025); apply Z.pow_add_r; lia).
  destruct (Z.leb_spec (2 ^ 1026) (round53 a)) as [Hbig|_]; [lia | eauto].
Qed.

(** The division raises nothing but [OverflowError]. *)
Lemma int_truediv_4_raises (a : Z) (x : exn) :
  int_truediv_4 a = Raise x → x = OverflowError.
Proof.
  unfold int_truediv_4. destruct (_ <=? _); [| discriminate].
  intros [= <-]. reflexivity.
Qed.

(** ** Runs of calls *)

Lemma run_app (cs1 cs2 : list call) (d : Decoder) :
  run (cs1 ++ cs2) d
  = match run cs1 d with
    | Raise x => Raise x
    | Ok (d1, o1) =>
        match run cs2 d1 with
        | Raise x => Raise x
        | Ok (d2, o2) => Ok (d2, o1 ++ o2)
        end
    end.
Proof.
  revert d. induction cs1 as [|[[s e] ev] cs1 IH]; intros d; simpl.
  - destruct (run cs2 d) as [[d2 o2]|x]; reflexivity.
  - destruct (decode s e ev d) as [[[[] d1] o]|x]; [| reflexivity].
    rewrite IH. destruct (run cs1 d1) as [[d2 o1]|x]; [| reflexivity].
    destruct (run cs2 d2) as [[d3 o2]|x]; reflexivity.
Qed.

Lemma data_calls_snoc (l : list (Z * Z * Z)) (s e v : Z) :
  data_calls (l ++ [(s, e, v)]) = data_calls l ++ [(s, e, DATA v)].
Proof. unfold data_calls. rewrite fmap_app. reflexivity. Qed.

Lemma vals_snoc (l : list (Z * Z * Z)) (s e v : Z) :
  vals (l ++ [(s, e, v)]) = vals l ++ [v].
Proof. unfold vals. rewrite fmap_app. reflexivity. Qed.

(** What the last call emits, once the calls before it are known to return. *)
Lemma last_emitted_snoc (cs : list call) (s e : Z) (ev : event)
    (d d1 d2 : Decoder) (os : list (list annotation)) (o : list annotation) :
  run cs d = Ok (d1, os) → decode s e ev d1 = Ok ((), d2, o) →
  last_emitted (cs ++ [(s, e, ev)]) d = Some o.
Proof.
  intros Hrun Hdec. unfold last_emitted, emitted.
  rewrite run_app, Hrun. simpl. rewrite Hdec. simpl.
  rewrite last_snoc. reflexivity.
Qed.

(** A run of data bytes returns, and accumulates the bytes, as long as the
    one division it may contain does not overflow: either the transaction
    is not a Read Scratchpad, or every interval is in range. *)
Lemma run_data_safe (l : list (Z * Z * Z)) (d : Decoder) :
  bytes d = [] ∨ assigned d →
  (bytes d ++ vals l) !! 0%nat ≠ Some 0xaa
  ∨ Forall (λ x, ∃ q, int_truediv_4 (x.1.2 - x.1.1) = Ok q) l →
  ∃ d' os, run (data_calls l) d = Ok (d', os)
           ∧ bytes d' = bytes d ++ vals l
           ∧ (bytes d' = [] ∨ assigned d')
           ∧ commands d' = commands d ∧ family d' = family d.
Proof.
  revert d. induction l as [|[[s e] v] l IH]; intros d Hd Hq.
  - exists d, []. simpl. rewrite app_nil_r. auto.
  - assert (bytes d !! 0%nat = Some 0xaa → len (bytes d) = 3 →
            ∃ q, int_truediv_4 (e - s) = Ok q) as Hdiv.
    { intros H0 _. destruct Hq as [Hq | Hq].
      - exfalso. apply Hq. apply lookup_app_l_Some. exact H0.
      - inversion Hq; subst. assumption. }
    pose proof (decode_data_safe d s e v Hd Hdiv) as Hstep.
    unfold returns in Hstep.
    change (data_calls ((s, e, v) :: l)) with ((s, e, DATA v) :: data_calls l).
    cbn [run].
    destruct (decode s e (DATA v) d) as [[[[] d1] o]|x]; [| done].
    destruct Hstep as (Hb1 & Ha1 & Hc1 & Hf1).
    destruct (IH d1) as (d' & os & Hrun & Hb & Ha & Hc & Hf).
    { auto. }
    { rewrite Hb1, <-app_assoc. destruct Hq as [Hq | Hq]; [left; exact Hq |].
      right. inversion Hq; subst. assumption. }
    exists d', (o :: os). rewrite Hrun.
    split; [reflexivity |]. split; [| split; [exact Ha | split; congruence]].
    rewrite Hb, Hb1, <-app_assoc. reflexivity.
Qed.

(** Unfold a run over an explicit list of calls, then follow it call by
    call with the step lemmas. *)
Ltac open_run :=
  unfold last_emitted, emitted;
  cbn [data_calls fmap list_fmap run fst snd].

Tactic Notation "use" uconstr(L) :=
  erewrite L by first [ reflexivity | eassumption ];
  cbv beta iota.

Ltac close_run := cbn [mbind option_bind last]; try reflexivity.

(** * The claims *)

(** ** C5: the target address *)

(** C5. For Write Scratchpad (0x0f), Read Scratchpad (0xaa) and Read Memory
    with Password (0x69), the third DATA byte of a transaction emits exactly
    one [addr] annotation, whose value is [(bytes[2] << 8) + bytes[1]]
    printed with ['%04x'], from the start of the second DATA event to the end
    of the third. *)
Theorem target_address_little_endian
    (d : Decoder) (op s1 e1 s2 e2 b1 s3 e3 b2 : Z) :
  bytes d = [] → has_address op →
  last_emitted (data_calls [(s1, e1, op); (s2, e2, b1); (s3, e3, b2)]) d
  = Some [Put s2 e3 ann_addr
            ["Target address: 0x" +:+ fmt_x 4 (Z.shiftl b2 8 + b1)]].
Proof.
  intros Hb Hop.
  assert (has_layout op) by (destruct Hop as [-> | [-> | ->]]; unfold has_layout; auto).
  open_run.
  use decode_first.
  use (decode_second _ s2 e2 b1 op).
  use (decode_address _ s3 e3 b1 b2 op s2).
  close_run.
Qed.

(** The instance of C5 given with the claim: bytes [0x0f, 0x10, 0x20] report
    the address 0x2010. *)
Lemma target_address_little_endian_witness :
  bytes init = [] ∧ has_address 0x0f ∧
  last_emitted (data_calls [(0, 10, 0x0f); (10, 20, 0x10); (20, 30, 0x20)]) init
  = Some [Put 10 30 ann_addr ["Target address: 0x2010"]].
Proof.
  split; [reflexivity |]. split; [left; reflexivity |].
  apply (target_address_little_endian init 0x0f 0 10 10 20 0x10 20 30 0x20).
  - reflexivity.
  - left; reflexivity.
Defined.

(** ** C1: the status byte of Read Scratchpad *)

(** C1, as amended.  For Read Scratchpad (0xaa), the fourth DATA byte, with
    interval [(start, end)] where [0 <= end - start < 2^53], emits exactly
    two annotations: [ending] with text "Ending Offset: %d" of
    [bytes[3] & 0x3f] over [(start, split)], then [status] with text
    "Data status: OK" if [bytes[3] & 0xc0 == 0] and "Data status: Err"
    otherwise over [(split, end)], where
    [split = start + floor((end - start) / 4) * 3]. *)
Theorem read_scratchpad_status_split
    (d : Decoder) (s1 e1 s2 e2 b1 s3 e3 b2 start end_ b : Z) :
  bytes d = [] → 0 ≤ end_ - start < 2 ^ 53 →
  last_emitted
    (data_calls [(s1, e1, 0xaa); (s2, e2, b1); (s3, e3, b2); (start, end_, b)]) d
  = Some [ Put start (start + (end_ - start) `div` 4 * 3) ann_end
             ["Ending Offset: " +:+ fmt_d (Z.land b 0x3f)];
           Put (start + (end_ - start) `div` 4 * 3) end_ ann_stat
             ["Data status: " +:+ (if Z.land b 0xc0 =? 0 then "OK" else "Err")] ].
Proof.
  intros Hb Hr.
  assert (has_layout 0xaa) by (unfold has_layout; auto).
  assert (has_address 0xaa) by (unfold has_address; auto).
  open_run.
  use decode_first.
  use (decode_second _ s2 e2 b1 0xaa).
  use (decode_address _ s3 e3 b1 b2 0xaa s2).
  pose proof (int_truediv_4_exact (end_ - start) Hr) as Hq.
  use (decode_read_status _ start end_ b1 b2 b ((end_ - start) `div` 4)).
  close_run.
Qed.

(** The instance given with the claim: interval (1000, 1100) and byte 0x45
    give the split 1075 and the ending offset 5; the status is "Err", since
    [0x45 & 0xc0 = 0x40]. *)
Lemma read_scratchpad_status_split_witness :
  bytes init = [] ∧ 0 ≤ 1100 - 1000 < 2 ^ 53 ∧
  last_emitted
    (data_calls [(0, 10, 0xaa); (10, 20, 0); (20, 30, 0); (1000, 1100, 0x45)]) init
  = Some [ Put 1000 1075 ann_end ["Ending Offset: 5"];
           Put 1075 1100 ann_stat ["Data status: Err"] ].
Proof.
  split; [reflexivity |]. split; [lia |].
  apply (read_scratchpad_status_split init 0 10 10 20 0 20 30 0 1000 1100 0x45).
  - reflexivity.
  - lia.
Defined.

Lemma occurs_app (c : ascii) (a b : string) :
  occurs c (a +:+ b) ↔ occurs c a ∨ occurs c b.
Proof.
  induction a as [|c' a IH]; simpl.
  - tauto.
  - rewrite IH. tauto.
Qed.

Lemma contains_occurs (c : ascii) (t s : string) :
  contains t s → occurs c t → occurs c s.
Proof.
  intros (pre & post & ->) Hc. rewrite !occurs_app. tauto.
Qed.

(** C1 as stated fails twice.  At its own example, interval (1000, 1100)
    and byte 0x45, the status annotation does not say "OK": bit 6 of 0x45 is
    set.  And for an interval longer than 2^53 samples the split is not
    [start + floor((end - start) / 4) * 3], because the quotient goes
    through a binary64 float. *)
Lemma read_scratchpad_status_counterexample :
  (¬ ∃ a1 a2 t,
       last_emitted
         (data_calls [(0, 10, 0xaa); (10, 20, 0); (20, 30, 0); (1000, 1100, 0x45)])
         init = Some [a1; a2]
       ∧ a_texts a2 = [t] ∧ contains "OK" t)
  ∧ (¬ ∃ a1 a2,
       last_emitted
         (data_calls [(0, 10, 0xaa); (10, 20, 0); (20, 30, 0);
                      (0, 2 ^ 53 + 3, 0x05)])
         init = Some [a1; a2]
       ∧ a_es a1 = 0 + ((2 ^ 53 + 3) - 0) `div` 4 * 3).
Proof.
  split.
  - intros (a1 & a2 & t & Hrun & Ht & Hc).
    vm_compute in Hrun. injection Hrun as <- <-. simpl in Ht.
    injection Ht as <-.
    apply (contains_occurs "O") in Hc; [| simpl; auto].
    simpl in Hc. intuition discriminate.
  - intros (a1 & a2 & Hrun & Hsplit).
    vm_compute in Hrun. injection Hrun as <- <-. vm_compute in Hsplit.
    discriminate.
Qed.

(** ** C7: the authorization pattern of Copy Scratchpad *)

(** C7, as amended.  For Copy Scratchpad with Password (0x99), the fourth
    DATA byte emits exactly one annotation, of class 0, which is the [data]
    class: its text is "Authorization pattern (TA1, TA2, E/S): " followed by
    [bytes[1:4]] as three ['#04x'] values separated by ", ", from the start
    of the second DATA event to the end of the fourth. *)
Theorem copy_scratchpad_authorization_pattern
    (d : Decoder) (s1 e1 s2 e2 b1 s3 e3 b2 s4 e4 b3 : Z) :
  bytes d = [] →
  last_emitted
    (data_calls [(s1, e1, 0x99); (s2, e2, b1); (s3, e3, b2); (s4, e4, b3)]) d
  = Some [ Put s2 e4 ann_data
             ["Authorization pattern (TA1, TA2, E/S): "
              +:+ fmt_hash_x 4 b1 +:+ ", " +:+ fmt_hash_x 4 b2 +:+ ", "
              +:+ fmt_hash_x 4 b3] ].
Proof.
  intros Hb.
  assert (has_layout 0x99) by (unfold has_layout; auto).
  open_run.
  use decode_first.
  use (decode_second _ s2 e2 b1 0x99).
  use (decode_copy_third _ s3 e3 b1 b2).
  use (decode_copy_pattern _ s4 e4 b1 b2 b3 s2).
  close_run.
Qed.

(** An instance: the pattern 0x10, 0x20, 0x1f. *)
Lemma copy_scratchpad_authorization_pattern_witness :
  bytes init = [] ∧
  last_emitted
    (data_calls [(0, 1, 0x99); (1, 2, 0x10); (2, 3, 0x20); (3, 4, 0x1f)]) init
  = Some [ Put 1 4 ann_data
             ["Authorization pattern (TA1, TA2, E/S): 0x10, 0x20, 0x1f"] ].
Proof.
  split; [reflexivity |].
  apply (copy_scratchpad_authorization_pattern init 0 1 1 2 0x10 2 3 0x20 3 4 0x1f).
  reflexivity.
Defined.

(** C7 as stated fails: the annotation emitted on the fourth byte carries
    the class of payload data, and no class of the decoder is an
    authorization-pattern class. *)
Lemma copy_scratchpad_authorization_pattern_counterexample :
  ¬ ∃ a id desc,
      last_emitted
        (data_calls [(0, 1, 0x99); (1, 2, 0x10); (2, 3, 0x20); (3, 4, 0x1f)]) init
      = Some [a]
      ∧ annotations !! Z.to_nat (a_cls a) = Some (id, desc)
      ∧ id ≠ "data".
Proof.
  intros (a & id & desc & Hrun & Hcls & Hid).
  vm_compute in Hrun. injection Hrun as <-.
  vm_compute in Hcls. injection Hcls as <- <-. apply Hid. reflexivity.
Qed.

(** ** C4: the result byte of Copy Scratchpad *)

(** C4. For Copy Scratchpad with Password (0x99), the thirteenth DATA byte
    emits exactly one annotation over that byte's own interval: [succ] with
    texts "Operation Succeeded", "Success", "S" if the byte is 0xaa or 0x55,
    and [fail] with texts "Operation Failed", "Failed", "F" for every other
    value. *)
Theorem copy_scratchpad_result
    (d : Decoder) (l : list (Z * Z * Z)) (s e v : Z) :
  bytes d = [] → length l = 12%nat → vals l !! 0%nat = Some 0x99 →
  last_emitted (data_calls (l ++ [(s, e, v)])) d
  = Some [ if decide (v = 0xaa ∨ v = 0x55)
           then Put s e ann_succ ["Operation Succeeded"; "Success"; "S"]
           else Put s e ann_fail ["Operation Failed"; "Failed"; "F"] ].
Proof.
  intros Hb Hlen Hop.
  destruct (run_data_safe l d) as (d1 & os & Hrun & Hb1 & _).
  { auto. }
  { left. rewrite Hb. simpl. rewrite Hop. discriminate. }
  rewrite Hb in Hb1. simpl in Hb1.
  destruct (vals l) as [|op rest] eqn:Hv; [discriminate |].
  simpl in Hop. injection Hop as ->.
  rewrite data_calls_snoc.
  eapply last_emitted_snoc; [exact Hrun |].
  apply (decode_copy_result d1 s e v rest Hb1).
  rewrite Hb1, <-Hv. unfold len, vals. rewrite length_fmap, Hlen. reflexivity.
Qed.

(** Instances: 0x55 succeeds, 0x56 fails. *)
Lemma copy_scratchpad_result_witness :
  bytes init = [] ∧ length copy_prefix = 12%nat
  ∧ vals copy_prefix !! 0%nat = Some 0x99 ∧
  last_emitted (data_calls (copy_prefix ++ [(12, 13, 0x55)])) init
  = Some [Put 12 13 ann_succ ["Operation Succeeded"; "Success"; "S"]] ∧
  last_emitted (data_calls (copy_prefix ++ [(12, 13, 0x56)])) init
  = Some [Put 12 13 ann_fail ["Operation Failed"; "Failed"; "F"]].
Proof.
  split; [reflexivity |]. split; [reflexivity |].
  split; [reflexivity |]. split.
  - apply (copy_scratchpad_result init copy_prefix 12 13 0x55); reflexivity.
  - apply (copy_scratchpad_result init copy_prefix 12 13 0x56); reflexivity.
Defined.

(** ** C6: the running payload view of Write Scratchpad *)

(** Once four bytes are in, every further byte of a Write Scratchpad
    transaction re-emits the payload from the start noted at the fourth. *)
Lemma write_scratchpad_view_grows (more : list (Z * Z * Z)) (d : Decoder)
    (rest : list Z) (s4 : Z) :
  bytes d = 0x0f :: rest → 4 ≤ len (bytes d) → ss d = Some s4 →
  ∃ d' os, run (data_calls more) d = Ok (d', os)
    ∧ bytes d' = bytes d ++ vals more
    ∧ ss d' = Some s4
    ∧ ∀ s e v, last more = Some (s, e, v) →
        last os = Some [Put s4 e ann_data
                          ["Data(" +:+ fmt_d (len (bytes d') - 3) +:+ "): "
                           +:+ join " " (fmt_x 2 <$> slice_from 3 (bytes d'))]].
Proof.
  revert d rest. induction more as [|[[s e] v] more IH]; intros d rest Hb Hn Hs.
  - exists d, []. rewrite app_nil_r.
    split; [reflexivity |]. split; [reflexivity |]. split; [exact Hs |].
    intros ? ? ? [=].
  - change (data_calls ((s, e, v) :: more)) with ((s, e, DATA v) :: data_calls more).
    cbn [run]. rewrite (decode_write_data_next d s e v s4 rest Hb Hn Hs).
    destruct (IH (with_es e (with_bytes (bytes d ++ [v]) d)) (rest ++ [v]))
      as (d' & os & Hrun & Hb' & Hs' & Hlast).
    { state_simpl. rewrite Hb. reflexivity. }
    { state_simpl. rewrite len_snoc. lia. }
    { exact Hs. }
    rewrite Hrun. state_simpl. eexists d', _. split; [reflexivity |].
    split; [rewrite Hb', <-app_assoc; reflexivity |]. split; [exact Hs' |].
    intros s' e' v' Hl.
    destruct more as [|c more'].
    + simpl in Hl. injection Hl as <- <- <-.
      simpl in Hrun. injection Hrun as <- <-. reflexivity.
    + rewrite last_cons in Hl. rewrite last_cons.
      destruct (last (c :: more')) as [[[s'' e''] v'']|] eqn:El;
        [| apply last_None in El; discriminate].
      injection Hl as -> -> ->.
      rewrite (Hlast s' e' v' eq_refl). reflexivity.
Qed.

(** C6. For Write Scratchpad (0x0f), every DATA byte from the fourth on
    emits exactly one [data] annotation: the payload length [n - 3] and the
    bytes [bytes[3:]] in two-digit hex separated by spaces, from the start
    of the fourth DATA event to the end of the current one.  Here [n] is the
    length of the whole run [l] and the statement holds for every number of
    bytes [more] after the fourth. *)
Theorem write_scratchpad_running_view
    (d : Decoder) (s1 e1 s2 e2 b1 s3 e3 b2 s4 e4 b3 : Z)
    (more : list (Z * Z * Z)) :
  bytes d = [] →
  last_emitted
    (data_calls ((s1, e1, 0x0f) :: (s2, e2, b1) :: (s3, e3, b2)
                 :: (s4, e4, b3) :: more)) d
  = Some [ Put s4 (default (s4, e4, b3) (last more)).1.2 ann_data
             ["Data(" +:+ fmt_d (len (0x0f :: b1 :: b2 :: b3 :: vals more) - 3)
              +:+ "): "
              +:+ join " " (fmt_x 2 <$> b3 :: vals more)] ].
Proof.
  intros Hb.
  assert (has_layout 0x0f) by (unfold has_layout; auto).
  assert (has_address 0x0f) by (unfold has_address; auto).
  unfold last_emitted, emitted.
  change (data_calls ((s1, e1, 0x0f) :: (s2, e2, b1) :: (s3, e3, b2)
                      :: (s4, e4, b3) :: more))
    with ((s1, e1, DATA 0x0f) :: (s2, e2, DATA b1) :: (s3, e3, DATA b2)
          :: (s4, e4, DATA b3) :: data_calls more).
  cbn [run].
  use decode_first.
  use (decode_second _ s2 e2 b1 0x0f).
  use (decode_address _ s3 e3 b1 b2 0x0f s2).
  use (decode_write_data_first _ s4 e4 b1 b2 b3).
  match goal with
  | |- context [run (data_calls more) ?d4] =>
      destruct (write_scratchpad_view_grows more d4 [b1; b2; b3] s4)
        as (d' & os & Hrun & Hb' & _ & Hlast);
      [reflexivity | state_simpl; rewrite !len_cons, len_nil; lia | reflexivity |];
      rewrite Hrun; state_simpl
  end.
  cbn [mbind option_bind]. rewrite !last_cons.
  destruct (last more) as [[[s e] v]|] eqn:El.
  - rewrite (Hlast s e v eq_refl), Hb'. reflexivity.
  - apply last_None in El. subst more. simpl in Hrun.
    injection Hrun as <- <-. reflexivity.
Qed.

(** The instance given in the specification: payload aa, then aa bb. *)
Lemma write_scratchpad_running_view_witness :
  bytes init = [] ∧
  last_emitted
    (data_calls [(0, 10, 0x0f); (10, 20, 0x10); (20, 30, 0x20);
                 (30, 40, 0xaa)]) init
  = Some [Put 30 40 ann_data ["Data(1): aa"]] ∧
  last_emitted
    (data_calls [(0, 10, 0x0f); (10, 20, 0x10); (20, 30, 0x20);
                 (30, 40, 0xaa); (40, 50, 0xbb)]) init
  = Some [Put 30 50 ann_data ["Data(2): aa bb"]].
Proof.
  split; [reflexivity |]. split.
  - apply (write_scratchpad_running_view init 0 10 10 20 0x10 20 30 0x20
             30 40 0xaa []). reflexivity.
  - apply (write_scratchpad_running_view init 0 10 10 20 0x10 20 30 0x20
             30 40 0xaa [(40, 50, 0xbb)]). reflexivity.
Defined.

(** ** C2: transaction boundaries *)

(** C2. A RESET/PRESENCE or ROM event returns and leaves [bytes] empty,
    whatever had accumulated; the DATA byte after it is then the only byte
    in [bytes], and is annotated as an opcode. *)
Theorem boundary_clears_bytes (d : Decoder) (s e : Z) (ev : event) :
  is_boundary ev = true →
  ∃ d1 o1, decode s e ev d = Ok ((), d1, o1)
    ∧ bytes d1 = []
    ∧ ∀ s' e' v, ∃ d2,
        decode s' e' (DATA v) d1
        = Ok ((), d2, [opcode_annotation (commands d) s' e' v])
        ∧ bytes d2 = [v].
Proof.
  intros Hev. destruct ev as [val | val | val]; [| | discriminate].
  - eexists _, _. split; [apply decode_reset |]. split; [reflexivity |].
    intros s' e' v. eexists. rewrite decode_first by reflexivity.
    split; reflexivity.
  - eexists _, _. split; [apply decode_rom |]. split; [reflexivity |].
    intros s' e' v. eexists. rewrite decode_first by reflexivity.
    split; reflexivity.
Qed.

(** An instance: a ROM event in the middle of a Write Scratchpad
    transaction. *)
Lemma boundary_clears_bytes_witness :
  is_boundary (ROM 0x2d00000012345637) = true ∧
  ∃ d1 o1, decode 50 115 (ROM 0x2d00000012345637) mid_transaction = Ok ((), d1, o1)
    ∧ bytes d1 = []
    ∧ ∀ s' e' v, ∃ d2,
        decode s' e' (DATA v) d1
        = Ok ((), d2, [opcode_annotation (commands mid_transaction) s' e' v])
        ∧ bytes d2 = [v].
Proof.
  split; [reflexivity |].
  apply (boundary_clears_bytes mid_transaction 50 115 (ROM 0x2d00000012345637)).
  reflexivity.
Defined.

(** ** C3: the opcode byte, and opcodes without a layout *)

Lemma commands_1977_names (op : Z) :
  op ∈ table_opcodes →
  ∃ long short, commands_1977 !! op = Some [long; short]
                ∧ (op, long, short) ∈ table_names.
Proof.
  unfold table_opcodes. rewrite !elem_of_cons, elem_of_nil.
  intros [-> | [-> | [-> | [-> | [-> | [-> | []]]]]]];
    eexists _, _; (split; [vm_compute; reflexivity |]);
    unfold table_names; rewrite !elem_of_cons; auto 10.
Qed.

Lemma commands_1977_unknown (op : Z) :
  op ∉ table_opcodes → commands_1977 !! op = None.
Proof.
  intros Hop. apply not_elem_of_list_to_map_1. exact Hop.
Qed.

(** Bytes after an opcode without a layout accumulate in silence. *)
Lemma run_no_layout (more : list (Z * Z * Z)) (d : Decoder) (op : Z) (rest : list Z) :
  bytes d = op :: rest → ¬ has_layout op →
  ∃ d', run (data_calls more) d = Ok (d', replicate (length more) [])
        ∧ bytes d' = bytes d ++ vals more.
Proof.
  revert d rest. induction more as [|[[s e] v] more IH]; intros d rest Hb Hop.
  - exists d. rewrite app_nil_r. split; reflexivity.
  - change (data_calls ((s, e, v) :: more)) with ((s, e, DATA v) :: data_calls more).
    cbn [run]. rewrite (decode_no_layout d s e v op rest Hb Hop).
    destruct (IH (with_bytes (bytes d ++ [v]) d) (rest ++ [v])) as (d' & Hrun & Hb').
    { state_simpl. rewrite Hb. reflexivity. }
    { exact Hop. }
    exists d'. rewrite Hrun. split; [reflexivity |].
    rewrite Hb'. state_simpl. rewrite <-app_assoc. reflexivity.
Qed.

(** C3. The first DATA byte of a transaction emits exactly one annotation.
    When the byte is none of the six opcodes of the table it is [err] with
    text "Unrecognized command: 0x%02x", a byte being printed as its two
    lower-case hexadecimal digits; otherwise it is [cmd] with the two names
    the table gives for the opcode.  After an opcode other than 0x0f, 0xaa,
    0x99 and 0x69, every further DATA byte is appended to [bytes] and emits
    nothing. *)
Theorem opcode_byte (d : Decoder) (s e op : Z) (more : list (Z * Z * Z)) :
  bytes d = [] → commands d = commands_1977 →
  ∃ d1 a, decode s e (DATA op) d = Ok ((), d1, [a])
    ∧ bytes d1 = [op]
    ∧ (op ∉ table_opcodes →
       a = Put s e ann_err ["Unrecognized command: 0x" +:+ fmt_x 2 op]
       ∧ (0 ≤ op < 256 → two_hex_digits (fmt_x 2 op) op))
    ∧ (op ∈ table_opcodes →
       ∃ long short, commands_1977 !! op = Some [long; short]
                     ∧ a = Put s e ann_cmd [long; short]
                     ∧ (op, long, short) ∈ table_names)
    ∧ (¬ has_layout op →
       ∃ d', run (data_calls more) d1 = Ok (d', replicate (length more) [])
             ∧ bytes d' = op :: vals more).
Proof.
  intros Hb Hc. eexists _, _. split; [apply decode_first; exact Hb |].
  split; [reflexivity |]. rewrite Hc. unfold opcode_annotation.
  split; [| split].
  - intros Hno. rewrite (commands_1977_unknown op Hno).
    split; [reflexivity | apply fmt_x_two_hex_digits].
  - intros Hin. destruct (commands_1977_names op Hin) as (long & short & E & Hn).
    exists long, short. rewrite E. split; [reflexivity |].
    split; [reflexivity | exact Hn].
  - intros Hl.
    destruct (run_no_layout more (with_es e (with_ss s (with_bytes [op] d))) op [])
      as (d' & Hrun & Hb'); [reflexivity | exact Hl |].
    exists d'. split; [exact Hrun | exact Hb'].
Qed.

(** An instance outside the table: the byte 0x42 is reported as
    "Unrecognized command: 0x42", and the bytes after it are silent. *)
Lemma opcode_byte_witness :
  bytes init = [] ∧ commands init = commands_1977 ∧
  ∃ d1 a, decode 0 10 (DATA 0x42) init = Ok ((), d1, [a])
    ∧ bytes d1 = [0x42]
    ∧ (0x42 ∉ table_opcodes →
       a = Put 0 10 ann_err ["Unrecognized command: 0x42"]
       ∧ (0 ≤ 0x42 < 256 → two_hex_digits "42" 0x42))
    ∧ (0x42 ∈ table_opcodes →
       ∃ long short, commands_1977 !! 0x42 = Some [long; short]
                     ∧ a = Put 0 10 ann_cmd [long; short]
                     ∧ (0x42, long, short) ∈ table_names)
    ∧ (¬ has_layout 0x42 →
       ∃ d', run (data_calls [(10, 20, 1); (20, 30, 2)]) d1
             = Ok (d', replicate (length [(10, 20, 1); (20, 30, 2)]) [])
             ∧ bytes d' = 0x42 :: vals [(10, 20, 1); (20, 30, 2)]).
Proof.
  split; [reflexivity |]. split; [reflexivity |].
  apply (opcode_byte init 0 10 0x42 [(10, 20, 1); (20, 30, 2)]); reflexivity.
Defined.

(** ** C8: the family code of a ROM event *)

Lemma string_app_assoc (a b c : string) : (a +:+ b) +:+ c = a +:+ b +:+ c.
Proof.
  induction a as [|x a IH]; [reflexivity |].
  change (String x ((a +:+ b) +:+ c) = String x (a +:+ b +:+ c)).
  congruence.
Qed.

Lemma contains_intro (pre t post : string) : contains t (pre +:+ t +:+ post).
Proof. exists pre, post. reflexivity. Qed.

Lemma hex_go_occurs (c : ascii) (fuel : nat) (x : N) (s : string) :
  occurs c (hex_go fuel x s) → occurs c s ∨ occurs c "0123456789abcdef".
Proof.
  revert x s. induction fuel as [|fuel IH]; intros x s; simpl; [tauto |].
  case_decide; [tauto |]. intros Hc. apply IH in Hc.
  destruct Hc as [H1 | H1]; [| tauto].
  simpl in H1. destruct H1 as [-> | H1]; [| tauto].
  right. apply hex_char_occurs.
Qed.

Lemma hex_occurs (c : ascii) (x : N) :
  occurs c (hex x) → occurs c "0123456789abcdef".
Proof.
  unfold hex. case_decide.
  - simpl. tauto.
  - intros Hc. apply hex_go_occurs in Hc. destruct Hc as [[] | H1]. exact H1.
Qed.

Lemma zeros_occurs (c : ascii) (k : nat) : occurs c (zeros k) → c = "0"%char.
Proof.
  unfold zeros. induction k as [|k IH]; simpl; [tauto |].
  intros [-> | H1]; [reflexivity | auto].
Qed.

(** A number printed with ['%0wx'] consists of a sign and hex digits. *)
Lemma fmt_x_occurs (c : ascii) (w : nat) (n : Z) :
  occurs c (fmt_x w n) → occurs c "-0123456789abcdef".
Proof.
  unfold fmt_x, zfill. destruct (n <? 0).
  - rewrite !occurs_app. intros [H | [H | H]].
    + simpl in H. simpl. tauto.
    + apply zeros_occurs in H. subst c. simpl. tauto.
    + apply hex_occurs in H. simpl in *. tauto.
  - rewrite !occurs_app. intros [H | H].
    + apply zeros_occurs in H. subst c. simpl. tauto.
    + apply hex_occurs in H. simpl in *. tauto.
Qed.

Lemma fmt_x_no_t (w : nat) (n : Z) : ¬ occurs "t" (fmt_x w n).
Proof.
  intros H. apply fmt_x_occurs in H. simpl in H.
  repeat (destruct H as [H | H]; [discriminate |]). exact H.
Qed.

(** C8. A ROM event records [family_code = val & 0xff] and emits one [rom]
    annotation.  Its most verbose text ends in the note
    "(family code is 0x37, DS1977 detected)" when the low byte is 0x37 and in
    "(family code 0x%02x unknown)" otherwise; so the text says that the
    DS1977 is detected exactly when the low byte is 0x37, and says "unknown"
    for every other low byte. *)
Theorem rom_family_code (d : Decoder) (s e val : Z) :
  family d = "DS1977" →
  ∃ d1 t1 t2 t3,
    decode s e (ROM val) d = Ok ((), d1, [Put s e ann_rom [t1; t2; t3]])
    ∧ family_code d1 = Some (Z.land val 0xff)
    ∧ t1 = "ROM: 0x" +:+ fmt_x 16 val +:+
           (if Z.land val 0xff =? 0x37
            then " (family code is 0x37, DS1977 detected)"
            else " (family code 0x" +:+ fmt_x 2 (Z.land val 0xff) +:+ " unknown)")
    ∧ (contains "DS1977 detected" t1 ↔ Z.land val 0xff = 0x37)
    ∧ (Z.land val 0xff ≠ 0x37 → contains "unknown" t1).
Proof.
  intros Hf. eexists _, _, _, _. split; [apply decode_rom |].
  split; [reflexivity |]. rewrite Hf. unfold family_note.
  destruct (Z.eqb_spec (Z.land val 0xff) 0x37) as [E | E].
  - rewrite E. split; [reflexivity |]. split; [| done].
    split; [intros _; reflexivity | intros _].
    exists ("ROM: 0x" +:+ fmt_x 16 val +:+ " (family code is 0x37, "), ")".
    rewrite !string_app_assoc. reflexivity.
  - split; [rewrite !string_app_assoc; reflexivity |].
    split; [split; [| done] |].
    + intros Hc. exfalso. apply (contains_occurs "t") in Hc; [| simpl; tauto].
      rewrite !occurs_app in Hc. simpl in Hc.
      repeat match type of Hc with
        | _ ∨ _ => destruct Hc as [Hc | Hc]
        | occurs _ (fmt_x _ _) => apply fmt_x_no_t in Hc
        | _ = _ => discriminate Hc
        | False => exact Hc
        end.
    + intros _.
      exists ("ROM: 0x" +:+ fmt_x 16 val +:+ " (family code 0x"
              +:+ fmt_x 2 (Z.land val 255) +:+ " "), ")".
      rewrite !string_app_assoc. reflexivity.
Qed.

(** An instance: a ROM code of family 0x37. *)
Lemma rom_family_code_witness :
  family init = "DS1977" ∧
  ∃ d1 t1 t2 t3,
    decode 5 70 (ROM 0x2d00000012345637) init
    = Ok ((), d1, [Put 5 70 ann_rom [t1; t2; t3]])
    ∧ family_code d1 = Some (Z.land 0x2d00000012345637 0xff)
    ∧ t1 = "ROM: 0x" +:+ fmt_x 16 0x2d00000012345637 +:+
           (if Z.land 0x2d00000012345637 0xff =? 0x37
            then " (family code is 0x37, DS1977 detected)"
            else " (family code 0x"
                 +:+ fmt_x 2 (Z.land 0x2d00000012345637 0xff) +:+ " unknown)")
    ∧ (contains "DS1977 detected" t1 ↔ Z.land 0x2d00000012345637 0xff = 0x37)
    ∧ (Z.land 0x2d00000012345637 0xff ≠ 0x37 → contains "unknown" t1).
Proof.
  split; [reflexivity |].
  apply (rom_family_code init 5 70 0x2d00000012345637). reflexivity.
Defined.

(** ** C9: the rows of the annotation classes *)

(** C9 fails on the code.  The row "bits" lists nine classes and leaves out
    [ann_end] and [ann_stat], which are in no row at all; the claim puts
    every class but [ann_err] in that row.  The row "err" names [ann_err]
    alone, as a bare integer. *)
Theorem annotation_rows_omit_ending_and_status :
  row "bits" = [ann_data; ann_reset; ann_rom; ann_cmd; ann_pwd; ann_addr;
                ann_crc; ann_succ; ann_fail]
  ∧ (ann_end ∉ row "bits") ∧ (ann_stat ∉ row "bits")
  ∧ (∀ r, r ∈ annotations_row →
          (ann_end ∉ classes_of r.2) ∧ (ann_stat ∉ classes_of r.2))
  ∧ annotations !! Z.to_nat ann_end = Some ("ending", "Ending Offset")
  ∧ annotations !! Z.to_nat ann_stat = Some ("status", "Data Status")
  ∧ (annotations_row.*2) !! 1%nat = Some (PyInt ann_err)
  ∧ row "err" = [ann_err].
Proof.
  assert (ann_end ∉ [ann_data; ann_reset; ann_rom; ann_cmd; ann_pwd; ann_addr;
                     ann_crc; ann_succ; ann_fail]) as H6.
  { rewrite !not_elem_of_cons. repeat split; try discriminate. apply not_elem_of_nil. }
  assert (ann_stat ∉ [ann_data; ann_reset; ann_rom; ann_cmd; ann_pwd; ann_addr;
                      ann_crc; ann_succ; ann_fail]) as H7.
  { rewrite !not_elem_of_cons. repeat split; try discriminate. apply not_elem_of_nil. }
  assert ((ann_end ∉ [ann_err]) ∧ (ann_stat ∉ [ann_err])) as [H6' H7'].
  { rewrite !not_elem_of_cons. repeat split; try discriminate; apply not_elem_of_nil. }
  split; [reflexivity |]. split; [exact H6 |]. split; [exact H7 |].
  split; [| repeat split; reflexivity].
  intros r. unfold annotations_row. rewrite !elem_of_cons, elem_of_nil.
  intros [-> | [-> | []]]; simpl; auto.
Qed.

(** ** C10: no exception *)

(** One DATA byte: the call returns and keeps the invariant, or it is the
    fourth byte of a Read Scratchpad transaction and the division raises
    [OverflowError]. *)
Lemma decode_data_total (d : Decoder) (s e v : Z) :
  bytes d = [] ∨ assigned d →
  (∃ d1 o, decode s e (DATA v) d = Ok ((), d1, o) ∧ assigned d1)
  ∨ (decode s e (DATA v) d = Raise OverflowError
     ∧ int_truediv_4 (e - s) = Raise OverflowError).
Proof.
  intros Hd.
  destruct (int_truediv_4 (e - s)) as [q|x] eqn:Hq.
  - left. pose proof (decode_data_safe d s e v Hd ltac:(eauto)) as Hstep.
    unfold returns in Hstep.
    destruct (decode s e (DATA v) d) as [[[[] d1] o]|x]; [| done].
    exists d1, o. split; [reflexivity | apply Hstep].
  - pose proof (int_truediv_4_raises _ _ Hq) as ->.
    destruct (decide (bytes d !! 0%nat = Some 0xaa ∧ len (bytes d) = 3))
      as [[H0 Hn] | Hno].
    + right. split; [| reflexivity].
      destruct (bytes d) as [|b0 [|b1 [|b2 [|b3 rest]]]] eqn:Hb;
        rewrite ?len_cons, ?len_nil in Hn; try lia.
      * simpl in H0. injection H0 as ->.
        apply (decode_read_status_overflow d s e b1 b2 v Hb Hq).
      * pose proof (len_nonneg rest). lia.
    + left. pose proof (decode_data_safe d s e v Hd) as Hstep.
      unfold returns in Hstep.
      destruct (decode s e (DATA v) d) as [[[[] d1] o]|x].
      * exists d1, o. split; [reflexivity |]. apply Hstep.
        intros H0 Hn. exfalso. apply Hno. split; assumption.
      * exfalso. apply Hstep. intros H0 Hn. exfalso. apply Hno. split; assumption.
Qed.

(** The invariant behind C10: between calls, either no byte has accumulated
    or both interval attributes exist.  With it no index is out of range and
    no attribute is missing; the division is all that can raise, and it does
    not while the intervals are short enough. *)
Lemma run_safe (cs : list call) (d : Decoder) :
  bytes d = [] ∨ assigned d →
  (∀ x, run cs d = Raise x →
     x = OverflowError ∧ ¬ Forall (λ c : call, 0 ≤ c.1.2 - c.1.1 < 2 ^ 1025) cs)
  ∧ (Forall wf_call cs → Forall fits_float cs →
     ∃ d' os, run cs d = Ok (d', os) ∧ length os = length cs).
Proof.
  revert d. induction cs as [|[[s e] ev] cs IH]; intros d Hd.
  - split; [intros x [=] |]. intros _ _. exists d, []. auto.
  - cbn [run].
    assert ((∃ d1 o, decode s e ev d = Ok ((), d1, o)
                     ∧ (bytes d1 = [] ∨ assigned d1))
            ∨ (decode s e ev d = Raise OverflowError
               ∧ int_truediv_4 (e - s) = Raise OverflowError))
      as [(d1 & o & Hdec & Hd1) | [Hdec Hq]].
    { destruct ev as [val | val | val].
      - left. eexists _, _. split; [apply decode_reset |]. left. reflexivity.
      - left. eexists _, _. split; [apply decode_rom |]. left. reflexivity.
      - destruct (decode_data_total d s e val Hd) as [(d1 & o & Hdec & Ha) | H];
          [left; eauto | right; exact H]. }
    + rewrite Hdec. destruct (IH d1 Hd1) as [Hraise Hret]. split.
      * intros x Hx. destruct (run cs d1) as [[d2 os]|x'] eqn:Hr; [discriminate |].
        injection Hx as ->. destruct (Hraise x eq_refl) as [-> Hlong].
        split; [reflexivity |]. intros Hall. apply Hlong.
        inversion Hall; subst. assumption.
      * intros Hwf Hfit. inversion Hwf; subst. inversion Hfit; subst.
        destruct Hret as (d' & os & Hrun & Hlen); [assumption | assumption |].
        exists d', (o :: os). rewrite Hrun. simpl. auto.
    + rewrite Hdec.
      assert (¬ 0 ≤ e - s < 2 ^ 1025) as Hlong.
      { intros Hr. destruct (int_truediv_4_fits (e - s) Hr) as [q Hq'].
        congruence. }
      split.
      * intros x [= <-]. split; [reflexivity |]. intros Hall.
        inversion Hall as [|? ? Hc]; subst. exact (Hlong Hc).
      * intros Hwf Hfit. exfalso. apply Hlong.
        inversion Hwf as [|? ? Hw]; subst. inversion Hfit as [|? ? Hf]; subst.
        unfold wf_call in Hw. unfold fits_float in Hf. lia.
Qed.

(** C10, as amended.  From a new decoder, whatever the events: no index into
    [bytes] is out of range and [ss] and [es] exist whenever [putx] reads
    them, also when the first event is a DATA byte, so that the only
    exception [decode] can raise is the [OverflowError] of
    [int((es - ss) / 4)], and only on an interval of [2^1025] samples or
    more.  When every interval has [end >= start] and is shorter than that,
    as with unsigned 64-bit sample numbers, every event is processed, with
    one list of annotations per event. *)
Theorem decode_never_raises (cs : list call) :
  Forall wf_call cs →
  (Forall fits_float cs →
   ∃ d os, run cs init = Ok (d, os) ∧ length os = length cs)
  ∧ (∀ x, run cs init = Raise x →
       x = OverflowError ∧ ¬ Forall fits_float cs).
Proof.
  intros Hwf. destruct (run_safe cs init) as [Hraise Hret]; [left; reflexivity |].
  split; [intros Hfit; apply Hret; assumption |].
  intros x Hx. destruct (Hraise x Hx) as [-> Hlong]. split; [reflexivity |].
  intros Hfit. apply Hlong.
  rewrite Forall_forall in *. intros [[s e] ev] Hc.
  specialize (Hwf _ Hc). specialize (Hfit _ Hc).
  unfold wf_call in Hwf. unfold fits_float in Hfit. simpl. lia.
Qed.

(** An instance that starts with a DATA byte and has a very long interval
    on the status byte. *)
Lemma decode_never_raises_witness :
  Forall wf_call [(0, 10, DATA 0xaa); (10, 20, DATA 0); (20, 30, DATA 0);
                  (30, 2 ^ 64 - 1, DATA 0xff); (40, 50, DATA 1);
                  (50, 60, RESET_PRESENCE true); (60, 70, ROM (2 ^ 64 - 1))]
  ∧ (Forall fits_float
       [(0, 10, DATA 0xaa); (10, 20, DATA 0); (20, 30, DATA 0);
        (30, 2 ^ 64 - 1, DATA 0xff); (40, 50, DATA 1);
        (50, 60, RESET_PRESENCE true); (60, 70, ROM (2 ^ 64 - 1))] →
     ∃ d os,
       run [(0, 10, DATA 0xaa); (10, 20, DATA 0); (20, 30, DATA 0);
            (30, 2 ^ 64 - 1, DATA 0xff); (40, 50, DATA 1);
            (50, 60, RESET_PRESENCE true); (60, 70, ROM (2 ^ 64 - 1))] init
       = Ok (d, os)
       ∧ length os
         = length [(0, 10, DATA 0xaa); (10, 20, DATA 0); (20, 30, DATA 0);
                   (30, 2 ^ 64 - 1, DATA 0xff); (40, 50, DATA 1);
                   (50, 60, RESET_PRESENCE true); (60, 70, ROM (2 ^ 64 - 1))])
  ∧ (∀ x,
       run [(0, 10, DATA 0xaa); (10, 20, DATA 0); (20, 30, DATA 0);
            (30, 2 ^ 64 - 1, DATA 0xff); (40, 50, DATA 1);
            (50, 60, RESET_PRESENCE true); (60, 70, ROM (2 ^ 64 - 1))] init
       = Raise x →
       x = OverflowError
       ∧ ¬ Forall fits_float
             [(0, 10, DATA 0xaa); (10, 20, DATA 0); (20, 30, DATA 0);
              (30, 2 ^ 64 - 1, DATA 0xff); (40, 50, DATA 1);
              (50, 60, RESET_PRESENCE true); (60, 70, ROM (2 ^ 64 - 1))]).
Proof.
  assert (Forall wf_call
            [(0, 10, DATA 0xaa); (10, 20, DATA 0); (20, 30, DATA 0);
             (30, 2 ^ 64 - 1, DATA 0xff); (40, 50, DATA 1);
             (50, 60, RESET_PRESENCE true); (60, 70, ROM (2 ^ 64 - 1))]) as Hwf.
  { repeat constructor; unfold wf_call; lia. }
  split; [exact Hwf |]. apply (decode_never_raises _ Hwf).
Defined.

(** C10 as stated fails: its events need only have the matching payload and
    [end >= start].  A Read Scratchpad transaction whose fourth byte lasts
    [2^1026] samples is such a sequence, and [decode] raises
    [OverflowError] on it. *)
Lemma decode_never_raises_counterexample :
  Forall wf_call [(0, 10, DATA 0xaa); (10, 20, DATA 0); (20, 30, DATA 0);
                  (30, 30 + 2 ^ 1026, DATA 0x45)]
  ∧ run [(0, 10, DATA 0xaa); (10, 20, DATA 0); (20, 30, DATA 0);
         (30, 30 + 2 ^ 1026, DATA 0x45)] init
    = Raise OverflowError.
Proof.
  split.
  - repeat constructor; unfold wf_call; lia.
  - vm_compute. reflexivity.
Qed.

(** * Beyond the claims *)

Example crc16_check :
  crc16 [0x31; 0x32; 0x33; 0x34; 0x35; 0x36; 0x37; 0x38; 0x39] = 0x44c2
  ∧ crc16 [] = 0xffff
  ∧ crc16 [0x131; -206] = crc16 [0x31; 0x32].
Proof. vm_compute. repeat split; reflexivity. Qed.

(** ** The checksum *)

Lemma lxor_16bit (a b : Z) :
  0 ≤ a < 2 ^ 16 → 0 ≤ b < 2 ^ 16 → 0 ≤ Z.lxor a b < 2 ^ 16.
Proof.
  intros Ha Hb. split; [apply Z.lxor_nonneg; lia |].
  destruct (decide (Z.lxor a b = 0)) as [-> | Hne]; [lia |].
  assert (0 < Z.lxor a b) by (pose proof (proj2 (Z.lxor_nonneg a b)); lia).
  apply Z.log2_lt_pow2; [lia |].
  pose proof (Z.log2_lxor a b ltac:(lia) ltac:(lia)) as Hl.
  assert (Z.log2 a < 16).
  { destruct (decide (a = 0)) as [-> | ?]; [reflexivity |]. apply Z.log2_lt_pow2; lia. }
  assert (Z.log2 b < 16).
  { destruct (decide (b = 0)) as [-> | ?]; [reflexivity |]. apply Z.log2_lt_pow2; lia. }
  lia.
Qed.

Lemma shiftr_16bit (a : Z) : 0 ≤ a < 2 ^ 16 → 0 ≤ Z.shiftr a 1 < 2 ^ 16.
Proof.
  intros Ha. rewrite Z.shiftr_div_pow2 by lia. change (2 ^ 1) with 2.
  split; [apply Z.div_pos; lia |]. apply Z.div_lt_upper_bound; lia.
Qed.

Lemma crc16_bit_16bit (crc byte : Z) :
  0 ≤ crc < 2 ^ 16 → 0 ≤ (crc16_bit (crc, byte)).1 < 2 ^ 16.
Proof.
  intros Hc. unfold crc16_bit. cbn [fst].
  pose proof (shiftr_16bit crc Hc).
  destruct (negb _); [| assumption].
  apply lxor_16bit; [assumption |]. unfold reverse. lia.
Qed.

Lemma iter_crc16_bit_16bit (k : nat) (crc byte : Z) :
  0 ≤ crc < 2 ^ 16 → 0 ≤ (Nat.iter k crc16_bit (crc, byte)).1 < 2 ^ 16.
Proof.
  intros Hc. induction k as [|k IH]; [exact Hc |].
  cbn [Nat.iter nat_rect]. change (nat_rect _ _ _ k) with (Nat.iter k crc16_bit (crc, byte)).
  destruct (Nat.iter k crc16_bit (crc, byte)) as [c b].
  apply crc16_bit_16bit. exact IH.
Qed.

Lemma crc16_byte_16bit (crc byte : Z) :
  0 ≤ crc < 2 ^ 16 → 0 ≤ crc16_byte crc byte < 2 ^ 16.
Proof. apply iter_crc16_bit_16bit. Qed.

Lemma foldl_crc16_byte_16bit (l : list Z) (crc : Z) :
  0 ≤ crc < 2 ^ 16 → 0 ≤ foldl crc16_byte crc l < 2 ^ 16.
Proof.
  revert crc. induction l as [|b l IH]; intros crc Hc; [exact Hc |].
  simpl. apply IH. apply crc16_byte_16bit. exact Hc.
Qed.

(** X1. The checksum of any list of integers is a 16-bit value. *)
Theorem crc16_range (byte_array : list Z) : 0 ≤ crc16 byte_array < 2 ^ 16.
Proof.
  unfold crc16. apply lxor_16bit; [| lia].
  apply foldl_crc16_byte_16bit. lia.
Qed.

(** *** Linearity over exclusive or *)

Lemma land_lxor_distr (a b c : Z) :
  Z.land (Z.lxor a b) c = Z.lxor (Z.land a c) (Z.land b c).
Proof.
  apply Z.bits_inj'. intros n Hn.
  rewrite !Z.land_spec, !Z.lxor_spec, !Z.land_spec.
  destruct (Z.testbit a n), (Z.testbit b n), (Z.testbit c n); reflexivity.
Qed.

Lemma lxor_swap (a b x y : Z) :
  Z.lxor (Z.lxor a b) (Z.lxor x y) = Z.lxor (Z.lxor a x) (Z.lxor b y).
Proof.
  rewrite !Z.lxor_assoc. f_equal.
  rewrite <-!Z.lxor_assoc. f_equal. apply Z.lxor_comm.
Qed.

Lemma land_1_cases (x : Z) : Z.land x 1 = 0 ∨ Z.land x 1 = 1.
Proof.
  change 1 with (Z.ones 1) at 1 2. rewrite Z.land_ones by lia.
  change (2 ^ 1) with 2. pose proof (Z.mod_pos_bound x 2). lia.
Qed.

(** One pass of the inner loop is linear: the pass over the exclusive or of
    two states is the exclusive or of the passes. *)
Lemma crc16_bit_lxor (c b c' b' : Z) :
  crc16_bit (Z.lxor c c', Z.lxor b b')
  = (Z.lxor (crc16_bit (c, b)).1 (crc16_bit (c', b')).1,
     Z.lxor (crc16_bit (c, b)).2 (crc16_bit (c', b')).2).
Proof.
  unfold crc16_bit. cbn [fst snd]. rewrite !Z.shiftr_lxor. f_equal.
  rewrite lxor_swap, land_lxor_distr.
  set (x := Z.shiftr c 1). set (y := Z.shiftr c' 1).
  destruct (land_1_cases (Z.lxor b c)) as [-> | ->],
           (land_1_cases (Z.lxor b' c')) as [-> | ->].
  - reflexivity.
  - change (Z.lxor (Z.lxor x y) reverse = Z.lxor x (Z.lxor y reverse)).
    apply Z.lxor_assoc.
  - change (Z.lxor (Z.lxor x y) reverse = Z.lxor (Z.lxor x reverse) y).
    rewrite !Z.lxor_assoc. f_equal. apply Z.lxor_comm.
  - change (Z.lxor x y = Z.lxor (Z.lxor x reverse) (Z.lxor y reverse)).
    rewrite lxor_swap, Z.lxor_nilpotent, Z.lxor_0_r. reflexivity.
Qed.

Lemma iter_crc16_bit_lxor (k : nat) (c b c' b' : Z) :
  Nat.iter k crc16_bit (Z.lxor c c', Z.lxor b b')
  = (Z.lxor (Nat.iter k crc16_bit (c, b)).1 (Nat.iter k crc16_bit (c', b')).1,
     Z.lxor (Nat.iter k crc16_bit (c, b)).2 (Nat.iter k crc16_bit (c', b')).2).
Proof.
  induction k as [|k IH]; [reflexivity |].
  rewrite !Nat.iter_succ, IH.
  destruct (Nat.iter k crc16_bit (c, b)) as [c1 b1],
           (Nat.iter k crc16_bit (c', b')) as [c2 b2].
  cbn [fst snd]. apply crc16_bit_lxor.
Qed.

Lemma crc16_byte_lxor (c b c' b' : Z) :
  crc16_byte (Z.lxor c c') (Z.lxor b b')
  = Z.lxor (crc16_byte c b) (crc16_byte c' b').
Proof. unfold crc16_byte. rewrite iter_crc16_bit_lxor. reflexivity. Qed.

(** *** The value split in its two bytes *)

Lemma split_bytes (r : Z) :
  r = Z.lxor (Z.shiftl (Z.shiftr r 8) 8) (Z.land r 0xff).
Proof.
  apply Z.bits_inj'. intros n Hn.
  rewrite Z.lxor_spec, Z.land_spec.
  change 0xff with (Z.ones 8).
  destruct (Z.lt_ge_cases n 8) as [Hlt | Hge].
  - rewrite Z.shiftl_spec_low by lia. rewrite Z.ones_spec_low by lia.
    rewrite andb_true_r. reflexivity.
  - rewrite Z.shiftl_spec by lia. rewrite Z.shiftr_spec by lia.
    rewrite Z.ones_spec_high by lia. rewrite andb_false_r, xorb_false_r.
    f_equal. lia.
Qed.

(** Eight passes move the high byte of the running value down, and cancel
    an element equal to the low byte. *)
Lemma crc16_byte_high (h : Z) :
  0 ≤ h < 256 → crc16_byte (Z.shiftl h 8) 0 = h.
Proof.
  intros Hh. apply Z.eqb_eq.
  apply (forall_below (λ h, crc16_byte (Z.shiftl h 8) 0 =? h) 256); [| exact Hh].
  vm_compute. reflexivity.
Qed.

Lemma crc16_byte_cancel (l : Z) : 0 ≤ l < 256 → crc16_byte l l = 0.
Proof.
  intros Hl. apply Z.eqb_eq.
  apply (forall_below (λ l, crc16_byte l l =? 0) 256); [| exact Hl].
  vm_compute. reflexivity.
Qed.

(** The body of the outer loop in table form: the high byte of the running
    value, combined with the pass of the low byte and the element. *)
Lemma crc16_byte_table (r b : Z) :
  0 ≤ r < 2 ^ 16 → 0 ≤ b < 256 →
  crc16_byte r b
  = Z.lxor (Z.shiftr r 8) (crc16_byte 0 (Z.lxor (Z.land r 0xff) b)).
Proof.
  intros Hr Hb.
  assert (0 ≤ Z.shiftr r 8 < 256) as Hh.
  { rewrite Z.shiftr_div_pow2 by lia. change (2 ^ 8) with 256.
    split; [apply Z.div_pos; lia | apply Z.div_lt_upper_bound; lia]. }
  assert (0 ≤ Z.land r 0xff < 256) as Hl.
  { change 0xff with (Z.ones 8). rewrite Z.land_ones by lia.
    apply Z.mod_pos_bound. lia. }
  set (l := Z.land r 0xff) in *.
  pose proof (crc16_byte_lxor l l l b) as E.
  rewrite Z.lxor_nilpotent, crc16_byte_cancel, Z.lxor_0_l in E by exact Hl.
  rewrite E.
  pose proof (crc16_byte_lxor (Z.shiftl (Z.shiftr r 8) 8) 0 l b) as E'.
  rewrite Z.lxor_0_l, crc16_byte_high in E' by exact Hh.
  rewrite <-E'. f_equal. apply split_bytes.
Qed.

(** *** The residue *)

(** Feeding the two bytes of the inverted checksum, low byte first, into
    the running value leaves the same value whatever it was. *)
Lemma crc16_residue_state (r : Z) :
  0 ≤ r < 2 ^ 16 →
  crc16_byte (crc16_byte r (Z.land (Z.lxor r 0xffff) 0xff))
             (Z.shiftr (Z.lxor r 0xffff) 8) = 0xb001.
Proof.
  intros Hr.
  assert (0 ≤ Z.shiftr r 8 < 256) as Hh.
  { rewrite Z.shiftr_div_pow2 by lia. change (2 ^ 8) with 256.
    split; [apply Z.div_pos; lia | apply Z.div_lt_upper_bound; lia]. }
  assert (0 ≤ Z.land r 0xff < 256) as Hl.
  { change 0xff with (Z.ones 8). rewrite Z.land_ones by lia.
    apply Z.mod_pos_bound. lia. }
  rewrite land_lxor_distr, Z.shiftr_lxor.
  change (Z.land 0xffff 0xff) with 0xff. change (Z.shiftr 0xffff 8) with 0xff.
  set (h := Z.shiftr r 8) in *. set (l := Z.land r 0xff) in *.
  assert (r = Z.lxor (Z.shiftl h 8) l) as Hsplit by apply split_bytes.
  assert (crc16_byte r (Z.lxor l 0xff) = Z.lxor h (crc16_byte 0 0xff)) as ->.
  { pose proof (crc16_byte_lxor (Z.shiftl h 8) 0 l (Z.lxor l 0xff)) as E.
    rewrite Z.lxor_0_l, crc16_byte_high in E by exact Hh.
    rewrite <-Hsplit in E. rewrite E. f_equal.
    pose proof (crc16_byte_lxor l l 0 0xff) as E'.
    rewrite Z.lxor_0_r, crc16_byte_cancel, Z.lxor_0_l in E' by exact Hl.
    exact E'. }
  rewrite crc16_byte_lxor, crc16_byte_cancel, Z.lxor_0_l by exact Hh.
  vm_compute. reflexivity.
Qed.

(** X2. A message followed by its own checksum, low byte first, always has the
    checksum 0x4ffe: the residue 0xb001, inverted. *)
Theorem crc16_residue (msg : list Z) :
  crc16 (msg ++ [Z.land (crc16 msg) 0xff; Z.shiftr (crc16 msg) 8]) = 0x4ffe.
Proof.
  unfold crc16 at 1. rewrite foldl_app. cbn [foldl]. unfold crc16.
  rewrite crc16_residue_state; [reflexivity |].
  apply foldl_crc16_byte_16bit. lia.
Qed.

(** *** Elements outside the byte range *)

Lemma iter_crc16_bit_clear (k : nat) (y : Z) :
  Z.land y (Z.ones (Z.of_nat k)) = 0 → (Nat.iter k crc16_bit (0, y)).1 = 0.
Proof.
  revert y. induction k as [|k IH]; intros y Hy; [reflexivity |].
  rewrite Nat.iter_succ_r. unfold crc16_bit at 2.
  rewrite Z.land_ones in Hy by lia.
  assert (Z.land (Z.lxor y 0) 1 = 0) as ->.
  { rewrite Z.lxor_0_r. change 1 with (Z.ones 1). rewrite Z.land_ones by lia.
    change (2 ^ 1) with 2.
    rewrite Nat2Z.inj_succ, Z.pow_succ_r in Hy by lia.
    pose proof (Z.mod_pos_bound y 2 ltac:(lia)).
    assert (0 < 2 ^ Z.of_nat k) by (apply Z.pow_pos_nonneg; lia).
    rewrite (Z.div_mod y (2 * 2 ^ Z.of_nat k)) by lia.
    rewrite Hy, Z.add_0_r, <-Z.mul_assoc, Z.mul_comm, Z.mod_mul by lia. reflexivity. }
  cbn [Z.eqb negb]. change (Z.shiftr 0 1) with 0. apply IH.
  rewrite Z.land_ones by lia. rewrite Z.shiftr_div_pow2 by lia. change (2 ^ 1) with 2.
  rewrite Nat2Z.inj_succ, Z.pow_succ_r in Hy by lia.
  assert (0 < 2 ^ Z.of_nat k) by (apply Z.pow_pos_nonneg; lia).
  apply Z.mod_divide in Hy; [| lia]. destruct Hy as [q Hq].
  subst y. replace (q * (2 * 2 ^ Z.of_nat k)) with ((q * 2 ^ Z.of_nat k) * 2) by lia.
  rewrite Z.div_mul by lia. apply Z.mod_mul. lia.
Qed.

(** Only the low eight bits of an element reach the checksum. *)
Lemma crc16_byte_low_bits (c b : Z) :
  crc16_byte c b = crc16_byte c (Z.land b 0xff).
Proof.
  pose proof (crc16_byte_lxor c (Z.land b 0xff) 0 (Z.lxor b (Z.land b 0xff))) as E.
  rewrite Z.lxor_0_r in E.
  assert (Z.lxor (Z.land b 0xff) (Z.lxor b (Z.land b 0xff)) = b) as Hb.
  { rewrite (Z.lxor_comm b), <-Z.lxor_assoc, Z.lxor_nilpotent. apply Z.lxor_0_l. }
  rewrite Hb in E. rewrite E.
  assert (crc16_byte 0 (Z.lxor b (Z.land b 0xff)) = 0) as ->.
  { apply (iter_crc16_bit_clear 8).
    change (Z.ones (Z.of_nat 8)) with 0xff.
    rewrite land_lxor_distr, <-Z.land_assoc.
    change (Z.land 0xff 0xff) with 0xff. apply Z.lxor_nilpotent. }
  rewrite Z.lxor_0_r. reflexivity.
Qed.

(** X3. An element is taken modulo 256: the checksum of any list of integers is
    that of the list of their low bytes. *)
Theorem crc16_low_bytes (byte_array : list Z) :
  crc16 byte_array = crc16 ((λ x, Z.land x 0xff) <$> byte_array).
Proof.
  unfold crc16. f_equal. generalize 0x0000 as c.
  induction byte_array as [|b l IH]; intros c; [reflexivity |].
  cbn [fmap list_fmap foldl]. rewrite <-crc16_byte_low_bits. apply IH.
Qed.

(** *** Error detection *)

Lemma lxor_bound (n a b : Z) :
  0 < n → 0 ≤ a < 2 ^ n → 0 ≤ b < 2 ^ n → 0 ≤ Z.lxor a b < 2 ^ n.
Proof.
  intros Hn Ha Hb. split; [apply Z.lxor_nonneg; lia |].
  destruct (decide (Z.lxor a b = 0)) as [-> | Hne]; [lia |].
  assert (0 < Z.lxor a b) by (pose proof (proj2 (Z.lxor_nonneg a b)); lia).
  apply Z.log2_lt_pow2; [lia |].
  pose proof (Z.log2_lxor a b ltac:(lia) ltac:(lia)) as Hl.
  assert (Z.log2 a < n).
  { destruct (decide (a = 0)) as [-> | ?]; [simpl; lia |]. apply Z.log2_lt_pow2; lia. }
  assert (Z.log2 b < n).
  { destruct (decide (b = 0)) as [-> | ?]; [simpl; lia |]. apply Z.log2_lt_pow2; lia. }
  lia.
Qed.

(** From the same running value, two different bytes lead to different
    values. *)
Lemma crc16_byte_element_inj (c b b' : Z) :
  0 ≤ b < 256 → 0 ≤ b' < 256 → crc16_byte c b = crc16_byte c b' → b = b'.
Proof.
  intros Hb Hb' E. apply Z.lxor_eq.
  pose proof (crc16_byte_lxor c b c b') as L.
  rewrite E, !Z.lxor_nilpotent in L.
  pose proof (lxor_bound 8 b b' ltac:(lia) Hb Hb') as Hx.
  change (2 ^ 8) with 256 in Hx.
  pose proof (forall_below (λ x, negb (crc16_byte 0 x =? 0) || (x =? 0)) 256
                eq_refl (Z.lxor b b') Hx) as Hc.
  cbv beta in Hc. rewrite L in Hc. cbn [Z.eqb negb orb] in Hc.
  apply Z.eqb_eq. exact Hc.
Qed.

(** With the same element, two different running values stay different. *)
Lemma crc16_byte_state_inj (c c' b : Z) :
  0 ≤ c < 2 ^ 16 → 0 ≤ c' < 2 ^ 16 →
  crc16_byte c b = crc16_byte c' b → c = c'.
Proof.
  intros Hc Hc' E. apply Z.lxor_eq.
  pose proof (crc16_byte_lxor c b c' b) as L.
  rewrite E, !Z.lxor_nilpotent in L.
  pose proof (lxor_bound 16 c c' ltac:(lia) Hc Hc') as Hx.
  set (x := Z.lxor c c') in *.
  assert (0 ≤ Z.shiftr x 8 < 256) as Hh.
  { rewrite Z.shiftr_div_pow2 by lia. change (2 ^ 8) with 256.
    split; [apply Z.div_pos; lia | apply Z.div_lt_upper_bound; lia]. }
  assert (0 ≤ Z.land x 0xff < 256) as Hl.
  { change 0xff with (Z.ones 8). rewrite Z.land_ones by lia.
    apply Z.mod_pos_bound. lia. }
  pose proof (crc16_byte_lxor (Z.shiftl (Z.shiftr x 8) 8) 0 (Z.land x 0xff) 0) as S.
  rewrite <-split_bytes, Z.lxor_0_r, L, crc16_byte_high in S by exact Hh.
  symmetry in S. apply Z.lxor_eq in S.
  pose proof (forall_below (λ l, (256 <=? crc16_byte l 0) || (l =? 0)) 256
                eq_refl (Z.land x 0xff) Hl) as Hz.
  cbv beta in Hz. rewrite <-S in Hz.
  destruct (Z.leb_spec 256 (Z.shiftr x 8)) as [|_]; [lia |].
  cbn [orb] in Hz. apply Z.eqb_eq in Hz.
  rewrite Hz in S. change (crc16_byte 0 0) with 0 in S.
  rewrite (split_bytes x), S, Hz. reflexivity.
Qed.

Lemma foldl_crc16_byte_inj (l : list Z) (c c' : Z) :
  0 ≤ c < 2 ^ 16 → 0 ≤ c' < 2 ^ 16 →
  foldl crc16_byte c l = foldl crc16_byte c' l → c = c'.
Proof.
  revert c c'. induction l as [|b l IH]; intros c c' Hc Hc' E; [exact E |].
  cbn [foldl] in E. apply IH in E; [| apply crc16_byte_16bit; assumption ..].
  apply (crc16_byte_state_inj c c' b); assumption.
Qed.

(** X4. Changing one byte of a message, anywhere, changes its checksum. *)
Theorem crc16_detects_byte_error (pre post : list Z) (b b' : Z) :
  0 ≤ b < 256 → 0 ≤ b' < 256 → b ≠ b' →
  crc16 (pre ++ b :: post) ≠ crc16 (pre ++ b' :: post).
Proof.
  intros Hb Hb' Hne E. apply Hne. unfold crc16 in E.
  apply (f_equal (λ z, Z.lxor z 0xffff)) in E. cbv beta in E.
  rewrite !Z.lxor_assoc, Z.lxor_nilpotent, !Z.lxor_0_r in E.
  rewrite !foldl_app in E. cbn [foldl] in E.
  assert (0 ≤ foldl crc16_byte 0 pre < 2 ^ 16) as Hr
    by (apply foldl_crc16_byte_16bit; lia).
  apply foldl_crc16_byte_inj in E; [| apply crc16_byte_16bit; exact Hr ..].
  apply (crc16_byte_element_inj _ b b' Hb Hb' E).
Qed.

Lemma crc16_detects_byte_error_witness :
  0 ≤ 0x32 < 256 ∧ 0 ≤ 0x33 < 256 ∧ 0x32 ≠ 0x33 ∧
  crc16 ([0x31] ++ 0x32 :: [0x34]) ≠ crc16 ([0x31] ++ 0x33 :: [0x34]).
Proof.
  split; [lia |]. split; [lia |]. split; [lia |].
  apply (crc16_detects_byte_error [0x31] [0x34] 0x32 0x33); lia.
Defined.

(** * The other fields of the four layouts *)

(** ** Step lemmas *)

(** Read Scratchpad, fifth byte: the payload view starts here. *)
Lemma decode_read_data_first (d : Decoder) (s e b1 b2 b3 v : Z) :
  bytes d = [0xaa; b1; b2; b3] →
  decode s e (DATA v) d
  = Ok ((), with_es e (with_ss s (with_bytes [0xaa; b1; b2; b3; v] d)),
        [Put s e 0
           ["Data(" +:+ fmt_d 1 +:+ "): " +:+ join " " (fmt_x 2 <$> [v])]]).
Proof.
  destruct d as [bs fc fam cms s0 e0]. cbn [bytes]. intros ->.
  run_decode; finish.
Qed.

(** Read Scratchpad, any later byte. *)
Lemma decode_read_data_next (d : Decoder) (s e v s5 : Z) (rest : list Z) :
  bytes d = 0xaa :: rest → 5 ≤ len (bytes d) → ss d = Some s5 →
  decode s e (DATA v) d
  = Ok ((), with_es e (with_bytes (bytes d ++ [v]) d),
        [Put s5 e 0
           ["Data(" +:+ fmt_d (len (bytes d ++ [v]) - 4) +:+ "): "
            +:+ join " " (fmt_x 2 <$> slice_from 4 (bytes d ++ [v]))]]).
Proof.
  destruct d as [bs fc fam cms s0 e0]. cbn [bytes ss]. intros -> Hn ->.
  run_decode; finish.
Qed.

(** Copy Scratchpad, fifth byte: the password starts here. *)
Lemma decode_copy_fifth (d : Decoder) (s e b1 b2 b3 v : Z) :
  bytes d = [0x99; b1; b2; b3] →
  decode s e (DATA v) d
  = Ok ((), with_ss s (with_bytes [0x99; b1; b2; b3; v] d), []).
Proof.
  destruct d as [bs fc fam cms s0 e0]. cbn [bytes]. intros ->.
  run_decode; finish.
Qed.

(** Copy Scratchpad: bytes 3, 6 to 11, and all after the 13th change
    nothing but [bytes]. *)
Lemma decode_copy_silent (d : Decoder) (s e v : Z) (rest : list Z) :
  bytes d = 0x99 :: rest →
  len (bytes d) = 2 ∨ 5 ≤ len (bytes d) ≤ 10 ∨ 13 ≤ len (bytes d) →
  decode s e (DATA v) d = Ok ((), with_bytes (bytes d ++ [v]) d, []).
Proof.
  destruct d as [bs fc fam cms s0 e0]. cbn [bytes]. intros -> Hn.
  run_decode; finish.
Qed.

(** Copy Scratchpad, twelfth byte: the password. *)
Lemma decode_copy_password (d : Decoder) (s e v s5 : Z) (rest : list Z) :
  bytes d = 0x99 :: rest → len (bytes d) = 11 → ss d = Some s5 →
  decode s e (DATA v) d
  = Ok ((), with_es e (with_bytes (bytes d ++ [v]) d),
        [Put s5 e ann_pwd
           ["Full Access Password: "
            +:+ join " " (fmt_x 2 <$> slice_from 4 (bytes d ++ [v]))]]).
Proof.
  destruct d as [bs fc fam cms s0 e0]. cbn [bytes ss]. intros -> Hn ->.
  run_decode; finish.
Qed.

(** Read Memory, fourth byte: the password starts here. *)
Lemma decode_memory_fourth (d : Decoder) (s e b1 b2 v : Z) :
  bytes d = [0x69; b1; b2] →
  decode s e (DATA v) d
  = Ok ((), with_ss s (with_bytes [0x69; b1; b2; v] d), []).
Proof.
  destruct d as [bs fc fam cms s0 e0]. cbn [bytes]. intros ->.
  run_decode; finish.
Qed.

(** Read Memory: bytes 5 to 10 change nothing but [bytes]. *)
Lemma decode_memory_silent (d : Decoder) (s e v : Z) (rest : list Z) :
  bytes d = 0x69 :: rest → 4 ≤ len (bytes d) ≤ 9 →
  decode s e (DATA v) d = Ok ((), with_bytes (bytes d ++ [v]) d, []).
Proof.
  destruct d as [bs fc fam cms s0 e0]. cbn [bytes]. intros -> Hn.
  run_decode; finish.
Qed.

(** Read Memory, eleventh byte: the password. *)
Lemma decode_memory_password (d : Decoder) (s e v s4 : Z) (rest : list Z) :
  bytes d = 0x69 :: rest → len (bytes d) = 10 → ss d = Some s4 →
  decode s e (DATA v) d
  = Ok ((), with_es e (with_bytes (bytes d ++ [v]) d),
        [Put s4 e ann_pwd
           ["Read Access Password: "
            +:+ join " " (fmt_x 2 <$> slice_from 3 (bytes d ++ [v]))]]).
Proof.
  destruct d as [bs fc fam cms s0 e0]. cbn [bytes ss]. intros -> Hn ->.
  run_decode; finish.
Qed.

(** Read Memory, twelfth byte: the data view starts here. *)
Lemma decode_memory_data_first (d : Decoder) (s e v : Z) (rest : list Z) :
  bytes d = 0x69 :: rest → len (bytes d) = 11 →
  decode s e (DATA v) d
  = Ok ((), with_es e (with_ss s (with_bytes (bytes d ++ [v]) d)),
        [Put s e ann_data
           ["Data(" +:+ fmt_d (len (bytes d ++ [v]) - 11) +:+ "): "
            +:+ join " " (fmt_x 2 <$> slice_from 11 (bytes d ++ [v]))]]).
Proof.
  destruct d as [bs fc fam cms s0 e0]. cbn [bytes]. intros -> Hn.
  run_decode; finish.
Qed.

(** Read Memory, any later byte. *)
Lemma decode_memory_data_next (d : Decoder) (s e v s12 : Z) (rest : list Z) :
  bytes d = 0x69 :: rest → 12 ≤ len (bytes d) → ss d = Some s12 →
  decode s e (DATA v) d
  = Ok ((), with_es e (with_bytes (bytes d ++ [v]) d),
        [Put s12 e ann_data
           ["Data(" +:+ fmt_d (len (bytes d ++ [v]) - 11) +:+ "): "
            +:+ join " " (fmt_x 2 <$> slice_from 11 (bytes d ++ [v]))]]).
Proof.
  destruct d as [bs fc fam cms s0 e0]. cbn [bytes ss]. intros -> Hn ->.
  run_decode; finish.
Qed.

(** ** Runs inside one layout *)

Lemma data_calls_cons (s e v : Z) (l : list (Z * Z * Z)) :
  data_calls ((s, e, v) :: l) = (s, e, DATA v) :: data_calls l.
Proof. reflexivity. Qed.

(** Once five bytes are in, every further byte of a Read Scratchpad
    transaction re-emits the payload from the start noted at the fifth. *)
Lemma read_scratchpad_view_grows (more : list (Z * Z * Z)) (d : Decoder)
    (rest : list Z) (s5 : Z) :
  bytes d = 0xaa :: rest → 5 ≤ len (bytes d) → ss d = Some s5 →
  ∃ d' os, run (data_calls more) d = Ok (d', os)
    ∧ bytes d' = bytes d ++ vals more
    ∧ ∀ s e v, last more = Some (s, e, v) →
        last os = Some [Put s5 e 0
                          ["Data(" +:+ fmt_d (len (bytes d') - 4) +:+ "): "
                           +:+ join " " (fmt_x 2 <$> slice_from 4 (bytes d'))]].
Proof.
  revert d rest. induction more as [|[[s e] v] more IH]; intros d rest Hb Hn Hs.
  - exists d, []. rewrite app_nil_r.
    split; [reflexivity |]. split; [reflexivity |]. intros ? ? ? [=].
  - rewrite data_calls_cons. cbn [run].
    rewrite (decode_read_data_next d s e v s5 rest Hb Hn Hs).
    destruct (IH (with_es e (with_bytes (bytes d ++ [v]) d)) (rest ++ [v]))
      as (d' & os & Hrun & Hb' & Hlast).
    { state_simpl. rewrite Hb. reflexivity. }
    { state_simpl. rewrite len_snoc. lia. }
    { exact Hs. }
    rewrite Hrun. state_simpl. eexists d', _. split; [reflexivity |].
    split; [rewrite Hb', <-app_assoc; reflexivity |].
    intros s' e' v' Hl.
    destruct more as [|c more'].
    + simpl in Hl. injection Hl as <- <- <-.
      simpl in Hrun. injection Hrun as <- <-. reflexivity.
    + rewrite last_cons in Hl. rewrite last_cons.
      destruct (last (c :: more')) as [[[s'' e''] v'']|] eqn:El;
        [| apply last_None in El; discriminate].
      injection Hl as -> -> ->.
      rewrite (Hlast s' e' v' eq_refl). reflexivity.
Qed.

(** The same for Read Memory, from the twelfth byte. *)
Lemma read_memory_view_grows (more : list (Z * Z * Z)) (d : Decoder)
    (rest : list Z) (s12 : Z) :
  bytes d = 0x69 :: rest → 12 ≤ len (bytes d) → ss d = Some s12 →
  ∃ d' os, run (data_calls more) d = Ok (d', os)
    ∧ bytes d' = bytes d ++ vals more
    ∧ ∀ s e v, last more = Some (s, e, v) →
        last os = Some [Put s12 e ann_data
                          ["Data(" +:+ fmt_d (len (bytes d') - 11) +:+ "): "
                           +:+ join " " (fmt_x 2 <$> slice_from 11 (bytes d'))]].
Proof.
  revert d rest. induction more as [|[[s e] v] more IH]; intros d rest Hb Hn Hs.
  - exists d, []. rewrite app_nil_r.
    split; [reflexivity |]. split; [reflexivity |]. intros ? ? ? [=].
  - rewrite data_calls_cons. cbn [run].
    rewrite (decode_memory_data_next d s e v s12 rest Hb Hn Hs).
    destruct (IH (with_es e (with_bytes (bytes d ++ [v]) d)) (rest ++ [v]))
      as (d' & os & Hrun & Hb' & Hlast).
    { state_simpl. rewrite Hb. reflexivity. }
    { state_simpl. rewrite len_snoc. lia. }
    { exact Hs. }
    rewrite Hrun. state_simpl. eexists d', _. split; [reflexivity |].
    split; [rewrite Hb', <-app_assoc; reflexivity |].
    intros s' e' v' Hl.
    destruct more as [|c more'].
    + simpl in Hl. injection Hl as <- <- <-.
      simpl in Hrun. injection Hrun as <- <-. reflexivity.
    + rewrite last_cons in Hl. rewrite last_cons.
      destruct (last (c :: more')) as [[[s'' e''] v'']|] eqn:El;
        [| apply last_None in El; discriminate].
      injection Hl as -> -> ->.
      rewrite (Hlast s' e' v' eq_refl). reflexivity.
Qed.

(** A stretch of bytes that a layout passes over in silence: [bytes]
    grows, [ss] stays. *)
Lemma run_copy_silent (mid : list (Z * Z * Z)) (d : Decoder) (rest : list Z) :
  bytes d = 0x99 :: rest →
  (5 ≤ len (bytes d) ∧ len (bytes d) + len mid ≤ 11) ∨ 13 ≤ len (bytes d) →
  ∃ d', run (data_calls mid) d = Ok (d', replicate (length mid) [])
        ∧ bytes d' = bytes d ++ vals mid ∧ ss d' = ss d.
Proof.
  revert d rest. induction mid as [|[[s e] v] mid IH]; intros d rest Hb Hn.
  - exists d. rewrite app_nil_r. auto.
  - rewrite data_calls_cons. cbn [run].
    rewrite len_cons in Hn.
    rewrite (decode_copy_silent d s e v rest Hb)
      by (pose proof (len_nonneg mid); lia).
    destruct (IH (with_bytes (bytes d ++ [v]) d) (rest ++ [v]))
      as (d' & Hrun & Hb' & Hs').
    { state_simpl. rewrite Hb. reflexivity. }
    { state_simpl. rewrite len_snoc. pose proof (len_nonneg mid). lia. }
    exists d'. rewrite Hrun. split; [reflexivity |].
    split; [rewrite Hb'; state_simpl; rewrite <-app_assoc; reflexivity | exact Hs'].
Qed.

Lemma run_memory_silent (mid : list (Z * Z * Z)) (d : Decoder) (rest : list Z) :
  bytes d = 0x69 :: rest →
  4 ≤ len (bytes d) → len (bytes d) + len mid ≤ 10 →
  ∃ d', run (data_calls mid) d = Ok (d', replicate (length mid) [])
        ∧ bytes d' = bytes d ++ vals mid ∧ ss d' = ss d.
Proof.
  revert d rest. induction mid as [|[[s e] v] mid IH]; intros d rest Hb Hn Hm.
  - exists d. rewrite app_nil_r. auto.
  - rewrite data_calls_cons. cbn [run].
    rewrite len_cons in Hm.
    rewrite (decode_memory_silent d s e v rest Hb)
      by (pose proof (len_nonneg mid); lia).
    destruct (IH (with_bytes (bytes d ++ [v]) d) (rest ++ [v]))
      as (d' & Hrun & Hb' & Hs').
    { state_simpl. rewrite Hb. reflexivity. }
    { state_simpl. rewrite len_snoc. lia. }
    { state_simpl. rewrite len_snoc. lia. }
    exists d'. rewrite Hrun. split; [reflexivity |].
    split; [rewrite Hb'; state_simpl; rewrite <-app_assoc; reflexivity | exact Hs'].
Qed.

(** ** The fields *)

(** X5. Read Scratchpad: every DATA byte from the fifth on emits exactly one
    annotation of class 0, the [data] class, with the payload length
    [n - 4] and [bytes[4:]] in hex, from the start of the fifth DATA event
    to the end of the current one.  The interval of the status byte is a
    pair of 64-bit sample numbers, so that its division returns. *)
Theorem read_scratchpad_running_view
    (d : Decoder) (s1 e1 s2 e2 b1 s3 e3 b2 s4 e4 b3 s5 e5 b4 : Z)
    (more : list (Z * Z * Z)) :
  bytes d = [] → 0 ≤ e4 - s4 < 2 ^ 64 →
  last_emitted
    (data_calls ((s1, e1, 0xaa) :: (s2, e2, b1) :: (s3, e3, b2)
                 :: (s4, e4, b3) :: (s5, e5, b4) :: more)) d
  = Some [ Put s5 (default (s5, e5, b4) (last more)).1.2 ann_data
             ["Data("
              +:+ fmt_d (len (0xaa :: b1 :: b2 :: b3 :: b4 :: vals more) - 4)
              +:+ "): "
              +:+ join " " (fmt_x 2 <$> b4 :: vals more)] ].
Proof.
  intros Hb Hr.
  assert (has_layout 0xaa) by (unfold has_layout; auto).
  assert (has_address 0xaa) by (unfold has_address; auto).
  destruct (int_truediv_4_safe (e4 - s4) Hr) as [q Hq].
  unfold last_emitted, emitted.
  rewrite !data_calls_cons. cbn [run].
  use decode_first.
  use (decode_second _ s2 e2 b1 0xaa).
  use (decode_address _ s3 e3 b1 b2 0xaa s2).
  use (decode_read_status _ s4 e4 b1 b2 b3 q).
  use (decode_read_data_first _ s5 e5 b1 b2 b3 b4).
  match goal with
  | |- context [run (data_calls more) ?d5] =>
      destruct (read_scratchpad_view_grows more d5 [b1; b2; b3; b4] s5)
        as (d' & os & Hrun & Hb' & Hlast);
      [reflexivity | state_simpl; rewrite !len_cons, len_nil; lia | reflexivity |];
      rewrite Hrun; state_simpl
  end.
  cbn [mbind option_bind]. rewrite !last_cons.
  destruct (last more) as [[[s e] v]|] eqn:El.
  - rewrite (Hlast s e v eq_refl), Hb'. reflexivity.
  - apply last_None in El. subst more. simpl in Hrun.
    injection Hrun as <- <-. reflexivity.
Qed.

Lemma read_scratchpad_running_view_witness :
  bytes init = [] ∧ 0 ≤ 1100 - 1000 < 2 ^ 64 ∧
  last_emitted
    (data_calls [(0, 10, 0xaa); (10, 20, 0); (20, 30, 0); (1000, 1100, 0x45);
                 (1100, 1200, 0x07); (1200, 1300, 0x1f)]) init
  = Some [Put 1100 1300 ann_data ["Data(2): 07 1f"]].
Proof.
  split; [reflexivity |]. split; [lia |].
  apply (read_scratchpad_running_view init 0 10 10 20 0 20 30 0 1000 1100 0x45
           1100 1200 0x07 [(1200, 1300, 0x1f)]).
  - reflexivity.
  - lia.
Defined.

(** X6. Copy Scratchpad with Password: the twelfth DATA byte emits exactly one
    [pwd] annotation, "Full Access Password: " and the eight bytes
    [bytes[4:12]] in hex, from the start of the fifth DATA event to the end
    of the twelfth. *)
Theorem copy_scratchpad_password
    (d : Decoder) (s1 e1 s2 e2 b1 s3 e3 b2 s4 e4 b3 s5 e5 b4 s e v : Z)
    (mid : list (Z * Z * Z)) :
  bytes d = [] → length mid = 6%nat →
  last_emitted
    (data_calls ((s1, e1, 0x99) :: (s2, e2, b1) :: (s3, e3, b2)
                 :: (s4, e4, b3) :: (s5, e5, b4) :: mid ++ [(s, e, v)])) d
  = Some [ Put s5 e ann_pwd
             ["Full Access Password: "
              +:+ join " " (fmt_x 2 <$> b4 :: vals mid ++ [v])] ].
Proof.
  intros Hb Hm.
  assert (has_layout 0x99) by (unfold has_layout; auto).
  unfold last_emitted, emitted.
  rewrite !data_calls_cons, data_calls_snoc. cbn [run].
  use decode_first.
  use (decode_second _ s2 e2 b1 0x99).
  use (decode_copy_third _ s3 e3 b1 b2).
  use (decode_copy_pattern _ s4 e4 b1 b2 b3 s2).
  use (decode_copy_fifth _ s5 e5 b1 b2 b3 b4).
  rewrite run_app.
  match goal with
  | |- context [run (data_calls mid) ?d5] =>
      destruct (run_copy_silent mid d5 [b1; b2; b3; b4])
        as (d' & Hrun & Hb' & Hs');
      [reflexivity
      | left; state_simpl; unfold len; rewrite Hm; simpl; lia |];
      rewrite Hrun; state_simpl
  end.
  cbn [run].
  rewrite (decode_copy_password d' s e v s5 ([b1; b2; b3; b4] ++ vals mid)).
  - cbn [mbind option_bind]. rewrite !last_cons, last_app. cbn [last].
    rewrite Hb'. reflexivity.
  - rewrite Hb'. reflexivity.
  - rewrite Hb'. unfold len, vals. rewrite length_app, length_fmap, Hm. reflexivity.
  - exact Hs'.
Qed.

Lemma copy_scratchpad_password_witness :
  bytes init = [] ∧
  length [(5, 6, 2); (6, 7, 3); (7, 8, 4); (8, 9, 5); (9, 10, 6); (10, 11, 7)]
  = 6%nat ∧
  last_emitted
    (data_calls ((0, 1, 0x99) :: (1, 2, 0x10) :: (2, 3, 0x20) :: (3, 4, 0x1f)
                 :: (4, 5, 1)
                 :: [(5, 6, 2); (6, 7, 3); (7, 8, 4); (8, 9, 5); (9, 10, 6);
                     (10, 11, 7)] ++ [(11, 12, 8)])) init
  = Some [Put 4 12 ann_pwd ["Full Access Password: 01 02 03 04 05 06 07 08"]].
Proof.
  split; [reflexivity |]. split; [reflexivity |].
  apply (copy_scratchpad_password init 0 1 1 2 0x10 2 3 0x20 3 4 0x1f 4 5 1
           11 12 8
           [(5, 6, 2); (6, 7, 3); (7, 8, 4); (8, 9, 5); (9, 10, 6); (10, 11, 7)]);
    reflexivity.
Defined.

(** X7. Copy Scratchpad with Password emits on bytes 1, 4, 12 and 13 of the
    transaction and on no other: every other DATA byte, also each one after
    the result byte, emits nothing. *)
Theorem copy_scratchpad_quiet
    (d : Decoder) (l : list (Z * Z * Z)) (s e v : Z) :
  bytes d = [] → vals l !! 0%nat = Some 0x99 →
  length l ≠ 3%nat → length l ≠ 11%nat → length l ≠ 12%nat →
  last_emitted (data_calls (l ++ [(s, e, v)])) d = Some [].
Proof.
  intros Hb Hop H3 H11 H12.
  destruct (run_data_safe l d) as (d1 & os & Hrun & Hb1 & _).
  { auto. }
  { left. rewrite Hb. simpl. rewrite Hop. discriminate. }
  rewrite Hb in Hb1. simpl in Hb1.
  assert (len (bytes d1) = Z.of_nat (length l)) as Hn
    by (rewrite Hb1; unfold len, vals; rewrite length_fmap; reflexivity).
  destruct (vals l) as [|op rest] eqn:Hv; [discriminate |].
  simpl in Hop. injection Hop as ->.
  rewrite data_calls_snoc.
  assert (has_layout 0x99) by (unfold has_layout; auto).
  assert (∃ d2, decode s e (DATA v) d1 = Ok ((), d2, [])) as [d2 Hdec].
  { rewrite Hb1, len_cons in Hn. pose proof (len_nonneg rest).
    destruct rest as [|b1 rest].
    - eexists. apply (decode_second d1 s e v 0x99); assumption.
    - destruct (decide (length l = 4%nat)) as [H4 | H4].
      + rewrite H4 in Hn. rewrite len_cons in Hn.
        destruct rest as [|b2 [|b3 [|b4 rest]]];
          rewrite ?len_cons, ?len_nil in Hn; try lia.
        * eexists. apply (decode_copy_fifth d1 s e b1 b2 b3 v). exact Hb1.
        * pose proof (len_nonneg rest). lia.
      + eexists. apply (decode_copy_silent d1 s e v (b1 :: rest) Hb1).
        rewrite Hb1, !len_cons. rewrite len_cons in Hn.
        pose proof (len_nonneg rest). lia. }
  apply (last_emitted_snoc _ s e (DATA v) d d1 d2 os [] Hrun Hdec).
Qed.

Lemma copy_scratchpad_quiet_witness :
  bytes init = [] ∧ vals (copy_prefix ++ [(12, 13, 0x55)]) !! 0%nat = Some 0x99
  ∧ length (copy_prefix ++ [(12, 13, 0x55)]) ≠ 3%nat
  ∧ length (copy_prefix ++ [(12, 13, 0x55)]) ≠ 11%nat
  ∧ length (copy_prefix ++ [(12, 13, 0x55)]) ≠ 12%nat
  ∧ last_emitted
      (data_calls ((copy_prefix ++ [(12, 13, 0x55)]) ++ [(13, 14, 0xaa)])) init
    = Some [].
Proof.
  split; [reflexivity |]. split; [reflexivity |].
  split; [discriminate |]. split; [discriminate |]. split; [discriminate |].
  apply (copy_scratchpad_quiet init (copy_prefix ++ [(12, 13, 0x55)]) 13 14 0xaa);
    (reflexivity || discriminate).
Defined.

(** X8. Read Memory with Password: the eleventh DATA byte emits exactly one
    [pwd] annotation, "Read Access Password: " and the eight bytes
    [bytes[3:11]] in hex, from the start of the fourth DATA event to the end
    of the eleventh. *)
Theorem read_memory_password
    (d : Decoder) (s1 e1 s2 e2 b1 s3 e3 b2 s4 e4 b3 s e v : Z)
    (mid : list (Z * Z * Z)) :
  bytes d = [] → length mid = 6%nat →
  last_emitted
    (data_calls ((s1, e1, 0x69) :: (s2, e2, b1) :: (s3, e3, b2)
                 :: (s4, e4, b3) :: mid ++ [(s, e, v)])) d
  = Some [ Put s4 e ann_pwd
             ["Read Access Password: "
              +:+ join " " (fmt_x 2 <$> b3 :: vals mid ++ [v])] ].
Proof.
  intros Hb Hm.
  assert (has_layout 0x69) by (unfold has_layout; auto).
  assert (has_address 0x69) by (unfold has_address; auto).
  unfold last_emitted, emitted.
  rewrite !data_calls_cons, data_calls_snoc. cbn [run].
  use decode_first.
  use (decode_second _ s2 e2 b1 0x69).
  use (decode_address _ s3 e3 b1 b2 0x69 s2).
  use (decode_memory_fourth _ s4 e4 b1 b2 b3).
  rewrite run_app.
  match goal with
  | |- context [run (data_calls mid) ?d4] =>
      destruct (run_memory_silent mid d4 [b1; b2; b3])
        as (d' & Hrun & Hb' & Hs');
      [reflexivity
      | state_simpl; rewrite !len_cons, len_nil; lia
      | state_simpl; unfold len; rewrite Hm; simpl; lia |];
      rewrite Hrun; state_simpl
  end.
  cbn [run].
  rewrite (decode_memory_password d' s e v s4 ([b1; b2; b3] ++ vals mid)).
  - cbn [mbind option_bind]. rewrite !last_cons, last_app. cbn [last].
    rewrite Hb'. reflexivity.
  - rewrite Hb'. reflexivity.
  - rewrite Hb'. unfold len, vals. rewrite length_app, length_fmap, Hm. reflexivity.
  - exact Hs'.
Qed.

Lemma read_memory_password_witness :
  bytes init = [] ∧
  length [(4, 5, 2); (5, 6, 3); (6, 7, 4); (7, 8, 5); (8, 9, 6); (9, 10, 7)]
  = 6%nat ∧
  last_emitted
    (data_calls ((0, 1, 0x69) :: (1, 2, 0x10) :: (2, 3, 0x20) :: (3, 4, 1)
                 :: [(4, 5, 2); (5, 6, 3); (6, 7, 4); (7, 8, 5); (8, 9, 6);
                     (9, 10, 7)] ++ [(10, 11, 8)])) init
  = Some [Put 3 11 ann_pwd ["Read Access Password: 01 02 03 04 05 06 07 08"]].
Proof.
  split; [reflexivity |]. split; [reflexivity |].
  apply (read_memory_password init 0 1 1 2 0x10 2 3 0x20 3 4 1 10 11 8
           [(4, 5, 2); (5, 6, 3); (6, 7, 4); (7, 8, 5); (8, 9, 6); (9, 10, 7)]);
    reflexivity.
Defined.

(** X9. Read Memory with Password: every DATA byte from the twelfth on emits
    exactly one [data] annotation with the length [n - 11] and [bytes[11:]]
    in hex, from the start of the twelfth DATA event to the end of the
    current one. *)
Theorem read_memory_running_view
    (d : Decoder) (l : list (Z * Z * Z)) (s12 e12 b : Z)
    (more : list (Z * Z * Z)) :
  bytes d = [] → length l = 11%nat → vals l !! 0%nat = Some 0x69 →
  last_emitted (data_calls (l ++ (s12, e12, b) :: more)) d
  = Some [ Put s12 (default (s12, e12, b) (last more)).1.2 ann_data
             ["Data(" +:+ fmt_d (len (vals l ++ b :: vals more) - 11) +:+ "): "
              +:+ join " " (fmt_x 2 <$> b :: vals more)] ].
Proof.
  intros Hb Hlen Hop.
  destruct (run_data_safe l d) as (d1 & os & Hrun & Hb1 & _).
  { auto. }
  { left. rewrite Hb. simpl. rewrite Hop. discriminate. }
  rewrite Hb in Hb1. simpl in Hb1.
  assert (len (bytes d1) = 11) as Hn
    by (rewrite Hb1; unfold len, vals; rewrite length_fmap, Hlen; reflexivity).
  assert (∃ rest, vals l = 0x69 :: rest) as [rest Hv].
  { destruct (vals l) as [|op rest]; [discriminate |].
    simpl in Hop. injection Hop as ->. eauto. }
  assert (slice_from 11 (vals l ++ b :: vals more) = b :: vals more) as Hdrop.
  { unfold slice_from. change (Z.to_nat 11) with 11%nat.
    rewrite drop_app_length'; [reflexivity |].
    unfold vals. rewrite length_fmap. symmetry. exact Hlen. }
  unfold last_emitted, emitted. unfold data_calls. rewrite fmap_app.
  fold (data_calls l). rewrite run_app, Hrun.
  change ((λ x, (x.1.1, x.1.2, DATA x.2)) <$> (s12, e12, b) :: more)
    with ((s12, e12, DATA b) :: data_calls more).
  cbn [run].
  rewrite (decode_memory_data_first d1 s12 e12 b rest
             ltac:(rewrite Hb1; exact Hv) Hn).
  destruct (read_memory_view_grows more
              (with_es e12 (with_ss s12 (with_bytes (bytes d1 ++ [b]) d1)))
              (rest ++ [b]) s12)
    as (d' & os' & Hrun' & Hb' & Hlast).
  { state_simpl. rewrite Hb1, Hv. reflexivity. }
  { state_simpl. rewrite len_snoc. lia. }
  { reflexivity. }
  rewrite Hrun'. cbn [mbind option_bind]. state_simpl.
  rewrite last_app, last_cons.
  assert (bytes d' = vals l ++ b :: vals more) as Hb''
    by (rewrite Hb', Hb1, <-app_assoc; reflexivity).
  destruct (last more) as [[[s e] v]|] eqn:El.
  - rewrite (Hlast s e v eq_refl), Hb'', Hdrop. reflexivity.
  - apply last_None in El. subst more. simpl in Hrun'.
    injection Hrun' as <- <-. cbn [last default vals fmap list_fmap].
    cbn [vals fmap list_fmap] in Hdrop. rewrite Hb1, Hdrop. reflexivity.
Qed.

Lemma read_memory_running_view_witness :
  bytes init = [] ∧
  length [(0, 1, 0x69); (1, 2, 0x10); (2, 3, 0x20); (3, 4, 1); (4, 5, 2);
          (5, 6, 3); (6, 7, 4); (7, 8, 5); (8, 9, 6); (9, 10, 7); (10, 11, 8)]
  = 11%nat ∧
  vals [(0, 1, 0x69); (1, 2, 0x10); (2, 3, 0x20); (3, 4, 1); (4, 5, 2);
        (5, 6, 3); (6, 7, 4); (7, 8, 5); (8, 9, 6); (9, 10, 7); (10, 11, 8)]
    !! 0%nat = Some 0x69 ∧
  last_emitted
    (data_calls ([(0, 1, 0x69); (1, 2, 0x10); (2, 3, 0x20); (3, 4, 1);
                  (4, 5, 2); (5, 6, 3); (6, 7, 4); (7, 8, 5); (8, 9, 6);
                  (9, 10, 7); (10, 11, 8)]
                 ++ (11, 12, 0xde) :: [(12, 13, 0xad)])) init
  = Some [Put 11 13 ann_data ["Data(2): de ad"]].
Proof.
  split; [reflexivity |]. split; [reflexivity |]. split; [reflexivity |].
  apply (read_memory_running_view init
           [(0, 1, 0x69); (1, 2, 0x10); (2, 3, 0x20); (3, 4, 1); (4, 5, 2);
            (5, 6, 3); (6, 7, 4); (7, 8, 5); (8, 9, 6); (9, 10, 7); (10, 11, 8)]
           11 12 0xde [(12, 13, 0xad)]); reflexivity.
Defined.

(** * What a call may do *)

Lemma ensures_bind {A B} (m : M A) (f : A → M B) d Q :
  ensures m d (λ a d1 o1, ensures (f a) d1 (λ b d2 o2, Q b d2 (o1 ++ o2))) →
  ensures (m ≫= f) d Q.
Proof.
  unfold ensures, mbind, M_bind.
  destruct (m d) as [[[a d1] o1]|e]; [| done].
  destruct (f a d1) as [[[b d2] o2]|e]; done.
Qed.

Lemma ensures_ret {A} (a : A) d Q : Q a d [] → ensures (mret a) d Q.
Proof. done. Qed.

Lemma ensures_pass d Q : Q () d [] → ensures pass d Q.
Proof. done. Qed.

Lemma ensures_lift {A} (r : result A) d Q :
  (∀ a, r = Ok a → Q a d []) → ensures (lift r) d Q.
Proof. intros H. unfold ensures, lift. destruct r; [apply H; reflexivity | done]. Qed.

Lemma ensures_get_bytes d Q : Q (bytes d) d [] → ensures get_bytes d Q.
Proof. done. Qed.

Lemma ensures_get_family d Q : Q (family d) d [] → ensures get_family d Q.
Proof. done. Qed.

Lemma ensures_get_commands d Q : Q (commands d) d [] → ensures get_commands d Q.
Proof. done. Qed.

Lemma ensures_set_bytes l d Q : Q () (with_bytes l d) [] → ensures (set_bytes l) d Q.
Proof. done. Qed.

Lemma ensures_set_family_code c d Q :
  Q () (with_family_code c d) [] → ensures (set_family_code c) d Q.
Proof. done. Qed.

Lemma ensures_set_ss t d Q : Q () (with_ss t d) [] → ensures (set_ss t) d Q.
Proof. done. Qed.

Lemma ensures_set_es t d Q : Q () (with_es t d) [] → ensures (set_es t) d Q.
Proof. done. Qed.

Lemma ensures_append_bytes v d Q :
  Q () (with_bytes (bytes d ++ [v]) d) [] → ensures (append_bytes v) d Q.
Proof. done. Qed.

Lemma ensures_len_bytes d Q : Q (len (bytes d)) d [] → ensures len_bytes d Q.
Proof. done. Qed.

Lemma ensures_bytes_at i d Q :
  (∀ x, getitem (bytes d) i = Ok x → Q x d []) → ensures (bytes_at i) d Q.
Proof.
  intros H. unfold ensures, bytes_at, mbind, M_bind, get_bytes, lift.
  destruct (getitem (bytes d) i) as [x|]; [apply H; reflexivity | done].
Qed.

Lemma ensures_commands_at v d Q :
  (∀ names, commands d !! v = Some names → Q names d []) →
  ensures (commands_at v) d Q.
Proof.
  intros H. unfold ensures, commands_at, mbind, M_bind, get_commands.
  destruct (commands d !! v) as [names|]; [apply H; reflexivity | done].
Qed.

Lemma ensures_putx cls texts d Q :
  (∀ s e, ss d = Some s → es d = Some e → Q () d [Put s e cls texts]) →
  ensures (putx cls texts) d Q.
Proof.
  intros H. unfold ensures, putx.
  destruct (ss d) as [s|]; [| done]. destruct (es d) as [e|]; [| done].
  apply H; reflexivity.
Qed.

(** One statement of the body, whether or not it raises. *)
Ltac may_step :=
  state_simpl;
  lazymatch goal with
  | |- ensures (mbind _ _) _ _ => apply ensures_bind
  | |- ensures (mret _) _ _ => apply ensures_ret
  | |- ensures pass _ _ => apply ensures_pass
  | |- ensures (set_ss _) _ _ => apply ensures_set_ss
  | |- ensures (set_es _) _ _ => apply ensures_set_es
  | |- ensures (set_bytes _) _ _ => apply ensures_set_bytes
  | |- ensures (set_family_code _) _ _ => apply ensures_set_family_code
  | |- ensures (append_bytes _) _ _ => apply ensures_append_bytes
  | |- ensures len_bytes _ _ => apply ensures_len_bytes
  | |- ensures get_bytes _ _ => apply ensures_get_bytes
  | |- ensures get_family _ _ => apply ensures_get_family
  | |- ensures get_commands _ _ => apply ensures_get_commands
  | |- ensures (putx _ _) _ _ => apply ensures_putx; intros ? ? _ _
  | |- ensures (bytes_at _) _ _ => apply ensures_bytes_at; intros ? ?
  | |- ensures (commands_at _) _ _ => apply ensures_commands_at; intros ? _
  | |- ensures (lift _) _ _ => apply ensures_lift; intros ? _
  | |- ensures (if ?c then _ else _) _ _ => destruct c eqn:?
  end;
  cbv beta.

Lemma getitem_zero_snoc (l : list Z) (v x : Z) :
  l ≠ [] → getitem (l ++ [v]) 0 = Ok x → l !! 0%nat = Some x.
Proof.
  destruct l as [|b0 rest]; [done |]. intros _. unfold getitem. simpl.
  intros [= ->]. reflexivity.
Qed.

(** Everything one call may do to the decoder and emit. *)
Lemma decode_ensures (s e : Z) (ev : event) (d : Decoder) :
  ensures (decode s e ev) d
    (λ _ d' out,
       (length out ≤ 2)%nat
       ∧ (length out = 2%nat →
          bytes d !! 0%nat = Some 0xaa ∧ len (bytes d) = 3 ∧ is_boundary ev = false)
       ∧ (is_boundary ev = true → length out = 1%nat)
       ∧ Forall declared_not_crc out
       ∧ commands d' = commands d ∧ family d' = family d
       ∧ (∀ v, ev = DATA v → bytes d' = bytes d ++ [v])
       ∧ ((∀ val, ev ≠ ROM val) → family_code d' = family_code d)).
Proof.
  destruct d as [bs fc fam cms os oe].
  unfold decode, write_scratchpad, read_scratchpad, copy_scratchpad, read_memory.
  destruct ev as [val | val | val].
  - repeat may_step. finish. repeat split; try done; try (simpl; lia).
    repeat constructor; vm_compute; congruence.
  - repeat may_step. finish. repeat split; try done; try (simpl; lia).
    + repeat constructor; vm_compute; congruence.
    + intros H. destruct (H val eq_refl).
  - repeat may_step.
    all: finish.
    all: first
      [ solve [ repeat split; try done; try (simpl; lia);
                try (intros ? [= <-]; reflexivity);
                try (repeat constructor; vm_compute; congruence) ]
      | idtac ].
    tests_to_facts. subst. rewrite len_snoc in *.
    split; [simpl; lia |]. split.
    { intros _. split; [| split; [lia | reflexivity]].
      apply (getitem_zero_snoc bs val); [| assumption].
      intros ->. rewrite len_nil in *. lia. }
    split; [discriminate |]. split.
    { repeat constructor; vm_compute; congruence. }
    split; [reflexivity |]. split; [reflexivity |].
    split; [intros ? [= <-] |]; reflexivity.
Qed.

(** The same, call after call. *)
Lemma run_ensures (P : Decoder → Prop) (Q : call → list annotation → Prop)
    (cs : list call) (d d' : Decoder) (os : list (list annotation)) :
  (∀ s e ev d, P d → ensures (decode s e ev) d (λ _ d1 out, P d1 ∧ Q (s, e, ev) out)) →
  P d → run cs d = Ok (d', os) →
  P d' ∧ Forall2 Q cs os.
Proof.
  intros Hstep. revert d os. induction cs as [|[[s e] ev] cs IH]; intros d os HP Hrun.
  - simpl in Hrun. injection Hrun as <- <-. split; [exact HP | constructor].
  - cbn [run] in Hrun. pose proof (Hstep s e ev d HP) as H1. unfold ensures in H1.
    destruct (decode s e ev d) as [[[[] d1] o]|x]; [| discriminate].
    destruct H1 as [HP1 HQ].
    destruct (run cs d1) as [[d2 os']|x] eqn:Hr; [| discriminate].
    injection Hrun as <- <-.
    destruct (IH d1 os' HP1 Hr) as [HP2 HF].
    split; [exact HP2 | constructor; assumption].
Qed.

(** * Properties of every call *)

(** X10. Every annotation the decoder emits carries a declared class, and never
    the class [crc]: the decoder declares it and defines [crc16], and uses
    neither. *)
Theorem emits_declared_classes_never_crc
    (cs : list call) (d d' : Decoder) (os : list (list annotation)) :
  run cs d = Ok (d', os) →
  Forall (Forall (λ a, 0 ≤ a_cls a < len annotations ∧ a_cls a ≠ ann_crc)) os.
Proof.
  intros Hrun.
  destruct (run_ensures (λ _, True) (λ _ out, Forall declared_not_crc out)
              cs d d' os) as [_ HF]; [| exact I | exact Hrun |].
  - intros s e ev d0 _. pose proof (decode_ensures s e ev d0) as H.
    unfold ensures in *. destruct (decode s e ev d0) as [[[[] d1] o]|x]; [| done].
    split; [exact I |]. apply H.
  - apply Forall2_Forall_r with (Q := Forall declared_not_crc) in HF.
    + exact HF.
    + apply Forall_true. auto.
Qed.

Lemma emits_declared_classes_never_crc_witness :
  run [(0, 10, DATA 0x99); (10, 20, RESET_PRESENCE true)] init
  = Ok ({| bytes := []; family_code := None; family := "DS1977";
           commands := commands_1977; ss := Some 10; es := Some 20 |},
        [ [Put 0 10 ann_cmd ["Copy Scratchpad with Password"; "WR Mem"]];
          [Put 10 20 ann_reset ["Reset/Presence: true"]] ])
  ∧ Forall (Forall (λ a, 0 ≤ a_cls a < len annotations ∧ a_cls a ≠ ann_crc))
      [ [Put 0 10 ann_cmd ["Copy Scratchpad with Password"; "WR Mem"]];
        [Put 10 20 ann_reset ["Reset/Presence: true"]] ].
Proof.
  split; [reflexivity |].
  apply (emits_declared_classes_never_crc
           [(0, 10, DATA 0x99); (10, 20, RESET_PRESENCE true)] init
           {| bytes := []; family_code := None; family := "DS1977";
              commands := commands_1977; ss := Some 10; es := Some 20 |}).
  reflexivity.
Defined.

(** X11. One call emits at most two annotations: exactly one on a boundary
    event, and two only on the fourth byte of a Read Scratchpad
    transaction. *)
Theorem decode_emits_at_most_two
    (s e : Z) (ev : event) (d d' : Decoder) (out : list annotation) :
  decode s e ev d = Ok ((), d', out) →
  (length out ≤ 2)%nat
  ∧ (is_boundary ev = true → length out = 1%nat)
  ∧ (length out = 2%nat →
     ∃ b1 b2 v, ev = DATA v ∧ bytes d = [0xaa; b1; b2]).
Proof.
  intros Hdec. pose proof (decode_ensures s e ev d) as H.
  unfold ensures in H. rewrite Hdec in H.
  destruct H as (H2 & Htwo & Hone & _).
  split; [exact H2 |]. split; [exact Hone |].
  intros Hl. destruct (Htwo Hl) as (H0 & Hn & Hev).
  destruct ev as [val | val | val]; [discriminate | discriminate |].
  destruct (bytes d) as [|b0 [|b1 [|b2 [|b3 rest]]]];
    rewrite ?len_cons, ?len_nil in Hn; try lia.
  - simpl in H0. injection H0 as ->. eauto.
  - pose proof (len_nonneg rest). lia.
Qed.

Lemma decode_emits_at_most_two_witness :
  decode 5 9 (ROM 0x37) init
  = Ok ((), {| bytes := []; family_code := Some 0x37; family := "DS1977";
               commands := commands_1977; ss := Some 5; es := Some 9 |},
        [Put 5 9 ann_rom
           [ "ROM: 0x0000000000000037 (family code is 0x37, DS1977 detected)";
             "ROM: 0x0000000000000037 (DS1977)";
             "ROM: 0x0000000000000037" ]])
  ∧ (length [Put 5 9 ann_rom
               [ "ROM: 0x0000000000000037 (family code is 0x37, DS1977 detected)";
                 "ROM: 0x0000000000000037 (DS1977)";
                 "ROM: 0x0000000000000037" ]] ≤ 2)%nat
  ∧ (is_boundary (ROM 0x37) = true →
     length [Put 5 9 ann_rom
               [ "ROM: 0x0000000000000037 (family code is 0x37, DS1977 detected)";
                 "ROM: 0x0000000000000037 (DS1977)";
                 "ROM: 0x0000000000000037" ]] = 1%nat)
  ∧ (length [Put 5 9 ann_rom
               [ "ROM: 0x0000000000000037 (family code is 0x37, DS1977 detected)";
                 "ROM: 0x0000000000000037 (DS1977)";
                 "ROM: 0x0000000000000037" ]] = 2%nat →
     ∃ b1 b2 v, ROM 0x37 = DATA v ∧ bytes init = [0xaa; b1; b2]).
Proof.
  split; [reflexivity |].
  apply (decode_emits_at_most_two 5 9 (ROM 0x37) init
           {| bytes := []; family_code := Some 0x37; family := "DS1977";
              commands := commands_1977; ss := Some 5; es := Some 9 |}).
  reflexivity.
Defined.

(** X12. No call changes the command table or the family name, and only a ROM
    event changes [family_code]. *)
Theorem run_frame
    (cs : list call) (d d' : Decoder) (os : list (list annotation)) :
  run cs d = Ok (d', os) →
  commands d' = commands d ∧ family d' = family d
  ∧ (Forall (λ c, ∀ val, c.2 ≠ ROM val) cs → family_code d' = family_code d).
Proof.
  revert d os. induction cs as [|[[s e] ev] cs IH]; intros d os Hrun.
  - simpl in Hrun. injection Hrun as <- <-. auto.
  - cbn [run] in Hrun. pose proof (decode_ensures s e ev d) as H.
    unfold ensures in H.
    destruct (decode s e ev d) as [[[[] d1] o]|x]; [| discriminate].
    destruct H as (_ & _ & _ & _ & Hc & Hf & _ & Hfc).
    destruct (run cs d1) as [[d2 os']|x] eqn:Hr; [| discriminate].
    injection Hrun as <- <-.
    destruct (IH d1 os' Hr) as (Hc' & Hf' & Hfc').
    split; [congruence |]. split; [congruence |].
    intros Hno. inversion Hno as [|? ? Hev Hrest]; subst.
    rewrite (Hfc' Hrest). apply Hfc. exact Hev.
Qed.

Lemma run_frame_witness :
  run [(10, 20, DATA 0x0f); (20, 30, RESET_PRESENCE false)]
    {| bytes := [0xcc; 0x01]; family_code := Some 0x37; family := "DS1977";
       commands := commands_1977; ss := Some 0; es := Some 5 |}
  = Ok ({| bytes := []; family_code := Some 0x37; family := "DS1977";
           commands := commands_1977; ss := Some 20; es := Some 30 |},
        [ []; [Put 20 30 ann_reset ["Reset/Presence: false"]] ])
  ∧ commands {| bytes := []; family_code := Some 0x37; family := "DS1977";
                commands := commands_1977; ss := Some 20; es := Some 30 |}
    = commands {| bytes := [0xcc; 0x01]; family_code := Some 0x37;
                  family := "DS1977"; commands := commands_1977;
                  ss := Some 0; es := Some 5 |}
  ∧ family {| bytes := []; family_code := Some 0x37; family := "DS1977";
              commands := commands_1977; ss := Some 20; es := Some 30 |}
    = family {| bytes := [0xcc; 0x01]; family_code := Some 0x37;
                family := "DS1977"; commands := commands_1977;
                ss := Some 0; es := Some 5 |}
  ∧ (Forall (λ c : call, ∀ val, c.2 ≠ ROM val)
       [(10, 20, DATA 0x0f); (20, 30, RESET_PRESENCE false)] →
     family_code {| bytes := []; family_code := Some 0x37; family := "DS1977";
                    commands := commands_1977; ss := Some 20; es := Some 30 |}
     = family_code {| bytes := [0xcc; 0x01]; family_code := Some 0x37;
                      family := "DS1977"; commands := commands_1977;
                      ss := Some 0; es := Some 5 |}).
Proof.
  split; [reflexivity |].
  apply (run_frame [(10, 20, DATA 0x0f); (20, 30, RESET_PRESENCE false)]
           {| bytes := [0xcc; 0x01]; family_code := Some 0x37; family := "DS1977";
              commands := commands_1977; ss := Some 0; es := Some 5 |}
           _ _ eq_refl).
Defined.

(** X13. A run of DATA events only appends to [bytes], in order, whatever the
    opcode and however long the transaction. *)
Theorem data_run_appends
    (l : list (Z * Z * Z)) (d d' : Decoder) (os : list (list annotation)) :
  run (data_calls l) d = Ok (d', os) → bytes d' = bytes d ++ vals l.
Proof.
  revert d os. induction l as [|[[s e] v] l IH]; intros d os Hrun.
  - simpl in Hrun. injection Hrun as <- <-. simpl. rewrite app_nil_r. reflexivity.
  - rewrite data_calls_cons in Hrun. cbn [run] in Hrun.
    pose proof (decode_ensures s e (DATA v) d) as H. unfold ensures in H.
    destruct (decode s e (DATA v) d) as [[[[] d1] o]|x]; [| discriminate].
    destruct H as (_ & _ & _ & _ & _ & _ & Hb & _).
    destruct (run (data_calls l) d1) as [[d2 os']|x] eqn:Hr; [| discriminate].
    injection Hrun as <- <-.
    rewrite (IH d1 os' Hr), (Hb v eq_refl), <-app_assoc. reflexivity.
Qed.

Lemma data_run_appends_witness :
  run (data_calls [(50, 60, 0xcc); (60, 70, 0x01); (70, 80, 0x02)]) mid_transaction
  = Ok ({| bytes := [0x0f; 0x10; 0x20; 0xaa; 0xbb; 0xcc; 0x01; 0x02];
           family_code := None; family := "DS1977"; commands := commands_1977;
           ss := Some 30; es := Some 80 |},
        [ [Put 30 60 ann_data ["Data(3): aa bb cc"]];
          [Put 30 70 ann_data ["Data(4): aa bb cc 01"]];
          [Put 30 80 ann_data ["Data(5): aa bb cc 01 02"]] ])
  ∧ bytes {| bytes := [0x0f; 0x10; 0x20; 0xaa; 0xbb; 0xcc; 0x01; 0x02];
             family_code := None; family := "DS1977"; commands := commands_1977;
             ss := Some 30; es := Some 80 |}
    = bytes mid_transaction
      ++ vals [(50, 60, 0xcc); (60, 70, 0x01); (70, 80, 0x02)].
Proof.
  split; [reflexivity |].
  apply (data_run_appends [(50, 60, 0xcc); (60, 70, 0x01); (70, 80, 0x02)]
           mid_transaction _ _ eq_refl).
Defined.

(** * [reset] *)

(** X14. A decoder that has been reset emits what a new decoder emits, whatever
    it decoded before: the interval attributes [reset] leaves behind are
    overwritten before they are read. *)
Theorem reset_like_new (d : Decoder) (cs : list call) :
  emitted cs (reset d) = emitted cs init
  ∧ (cs ≠ [] → run cs (reset d) = run cs init).
Proof.
  assert (cs ≠ [] → run cs (reset d) = run cs init) as H.
  { destruct cs as [|[[s e] ev] cs]; [done |]. intros _. cbn [run].
    assert (decode s e ev (reset d) = decode s e ev init) as ->; [| reflexivity].
    destruct ev as [val | val | val].
    - rewrite !decode_reset. reflexivity.
    - rewrite !decode_rom. reflexivity.
    - rewrite !decode_first by reflexivity. reflexivity. }
  split; [| exact H].
  destruct cs as [|c cs]; [reflexivity |].
  unfold emitted. rewrite H by done. reflexivity.
Qed.

(** * The division by four, in the whole range of the float *)

(** Rounding to 53 bits moves a number by less than a third of itself. *)
Lemma round53_close (a : Z) : 0 ≤ a → 3 * round53 a ≤ 4 * a.
Proof.
  intros H0. unfold round53.
  destruct (Z.leb_spec (Z.log2 a - 52) 0) as [|Hk]; [lia |].
  set (k := Z.log2 a - 52) in *.
  assert (0 < a) as Hpos.
  { destruct (decide (a = 0)) as [-> | ?]; [| lia]. subst k. simpl in Hk. lia. }
  rewrite !Z.shiftl_mul_pow2, Z.shiftr_div_pow2 by lia.
  assert (0 < 2 ^ k) as Hp by (apply Z.pow_pos_nonneg; lia).
  assert (2 ^ 52 * 2 ^ k ≤ a) as Hle.
  { rewrite <-Z.pow_add_r by lia. replace (52 + k) with (Z.log2 a) by lia.
    apply Z.log2_spec. lia. }
  pose proof (Z.mul_div_le a (2 ^ k) Hp) as Hq.
  change (2 ^ 52) with 4503599627370496 in Hle.
  destruct (_ || _); nia.
Qed.

(** Rounding never takes a number below the power of two under it. *)
Lemma round53_large (a : Z) (n : Z) :
  53 ≤ n → 2 ^ n ≤ a → 2 ^ n ≤ round53 a.
Proof.
  intros Hn Ha. unfold round53.
  assert (0 < 2 ^ n) as Hpn by (apply Z.pow_pos_nonneg; lia).
  assert (n ≤ Z.log2 a) as Hl by (apply Z.log2_le_pow2; lia).
  destruct (Z.leb_spec (Z.log2 a - 52) 0) as [|Hk]; [lia |].
  set (k := Z.log2 a - 52) in *.
  rewrite !Z.shiftl_mul_pow2, Z.shiftr_div_pow2 by lia.
  assert (0 < 2 ^ k) as Hp by (apply Z.pow_pos_nonneg; lia).
  assert (2 ^ 52 ≤ a `div` 2 ^ k) as Hq.
  { apply Z.div_le_lower_bound; [lia |].
    rewrite Z.mul_comm, <-Z.pow_add_r by lia. replace (52 + k) with (Z.log2 a) by lia.
    apply Z.log2_spec. lia. }
  assert (2 ^ n ≤ 2 ^ 52 * 2 ^ k) as Hb.
  { rewrite <-Z.pow_add_r by lia. apply Z.pow_le_mono_r; lia. }
  change (2 ^ 52) with 4503599627370496 in *.
  destruct (_ || _); nia.
Qed.

(** Three quarters, computed through the float, never exceed the whole. *)
Lemma int_truediv_4_inside (a q : Z) :
  0 ≤ a → int_truediv_4 a = Ok q →
  q = round53 a `div` 4 ∧ 0 ≤ q ∧ q * 3 ≤ a.
Proof.
  intros H0. unfold int_truediv_4. rewrite Z.abs_eq by lia.
  destruct (Z.leb_spec (2 ^ 1026) (round53 a)) as [|_]; [discriminate |].
  intros [= <-]. pose proof (round53_close a H0) as Hc.
  destruct (decide (a = 0)) as [-> | Hne]; [split; [reflexivity | simpl; lia] |].
  rewrite Z.sgn_pos by lia.
  assert (0 ≤ round53 a).
  { unfold round53. destruct (_ <=? _); [lia |].
    destruct (_ || _); apply Z.shiftl_nonneg;
      pose proof (Z.shiftr_nonneg a (Z.log2 a - 52)); lia. }
  pose proof (Z.mul_div_le (round53 a) 4 ltac:(lia)).
  pose proof (Z.div_pos (round53 a) 4 ltac:(lia) ltac:(lia)).
  split; [lia |]. split; lia.
Qed.

Lemma int_truediv_4_overflow (a : Z) :
  2 ^ 1026 ≤ a → int_truediv_4 a = Raise OverflowError.
Proof.
  intros Ha. unfold int_truediv_4.
  assert (0 < 2 ^ 1026) by (apply Z.pow_pos_nonneg; lia).
  rewrite Z.abs_eq by lia.
  pose proof (round53_large a 1026 ltac:(lia) Ha).
  destruct (Z.leb_spec (2 ^ 1026) (round53 a)); [reflexivity | lia].
Qed.

(** X15. Read Scratchpad, fourth DATA byte, for every interval whose length fits
    the float: the two annotations meet at [start + int(length / 4) * 3]
    with the length rounded to 53 significant bits first, and this point
    lies inside the interval of the byte. *)
Theorem read_scratchpad_split_inside
    (d : Decoder) (s1 e1 s2 e2 b1 s3 e3 b2 start end_ b : Z) :
  bytes d = [] → 0 ≤ end_ - start < 2 ^ 1025 →
  let split := start + round53 (end_ - start) `div` 4 * 3 in
  start ≤ split ≤ end_ ∧
  last_emitted
    (data_calls [(s1, e1, 0xaa); (s2, e2, b1); (s3, e3, b2); (start, end_, b)]) d
  = Some [ Put start split ann_end
             ["Ending Offset: " +:+ fmt_d (Z.land b 0x3f)];
           Put split end_ ann_stat
             ["Data status: " +:+ (if Z.land b 0xc0 =? 0 then "OK" else "Err")] ].
Proof.
  intros Hb Hr split.
  assert (has_layout 0xaa) by (unfold has_layout; auto).
  assert (has_address 0xaa) by (unfold has_address; auto).
  destruct (int_truediv_4_fits (end_ - start) Hr) as [q Hq].
  destruct (int_truediv_4_inside (end_ - start) q ltac:(lia) Hq) as (Eq & Hq0 & Hq3).
  split; [subst split; rewrite <-Eq; lia |].
  open_run.
  use decode_first.
  use (decode_second _ s2 e2 b1 0xaa).
  use (decode_address _ s3 e3 b1 b2 0xaa s2).
  use (decode_read_status _ start end_ b1 b2 b q).
  subst split. rewrite <-Eq. close_run.
Qed.

Lemma read_scratchpad_split_inside_witness :
  bytes init = [] ∧ 0 ≤ (2 ^ 53 + 7) - 0 < 2 ^ 1025 ∧
  let split := 0 + round53 ((2 ^ 53 + 7) - 0) `div` 4 * 3 in
  0 ≤ split ≤ 2 ^ 53 + 7 ∧
  last_emitted
    (data_calls [(0, 10, 0xaa); (10, 20, 0); (20, 30, 0); (0, 2 ^ 53 + 7, 0x45)])
    init
  = Some [ Put 0 split ann_end ["Ending Offset: " +:+ fmt_d (Z.land 0x45 0x3f)];
           Put split (2 ^ 53 + 7) ann_stat
             ["Data status: "
              +:+ (if Z.land 0x45 0xc0 =? 0 then "OK" else "Err")] ].
Proof.
  split; [reflexivity |]. split; [vm_compute; split; [discriminate | reflexivity] |].
  apply (read_scratchpad_split_inside init 0 10 10 20 0 20 30 0 0 (2 ^ 53 + 7) 0x45).
  - reflexivity.
  - vm_compute; split; [discriminate | reflexivity].
Defined.

(** X16. Read Scratchpad with an interval of [2^1026] samples or more on the
    fourth DATA byte: the three bytes before it are processed as usual, and
    the call for the fourth byte raises [OverflowError], the quotient not
    fitting a float. *)
Theorem read_scratchpad_overflow
    (d : Decoder) (s1 e1 s2 e2 b1 s3 e3 b2 start end_ b : Z) :
  bytes d = [] → 2 ^ 1026 ≤ end_ - start →
  ∃ d3,
    run (data_calls [(s1, e1, 0xaa); (s2, e2, b1); (s3, e3, b2)]) d
    = Ok (d3, [ [opcode_annotation (commands d) s1 e1 0xaa]; [];
                [Put s2 e3 ann_addr [target_address b2 b1]] ])
    ∧ bytes d3 = [0xaa; b1; b2]
    ∧ decode start end_ (DATA b) d3 = Raise OverflowError
    ∧ run (data_calls [(s1, e1, 0xaa); (s2, e2, b1); (s3, e3, b2);
                       (start, end_, b)]) d
      = Raise OverflowError.
Proof.
  intros Hb Hr.
  assert (has_layout 0xaa) by (unfold has_layout; auto).
  assert (has_address 0xaa) by (unfold has_address; auto).
  pose proof (int_truediv_4_overflow (end_ - start) Hr) as Hq.
  assert (∃ d3,
            run (data_calls [(s1, e1, 0xaa); (s2, e2, b1); (s3, e3, b2)]) d
            = Ok (d3, [ [opcode_annotation (commands d) s1 e1 0xaa]; [];
                        [Put s2 e3 ann_addr [target_address b2 b1]] ])
            ∧ bytes d3 = [0xaa; b1; b2]) as (d3 & H3 & Hb3).
  { eexists. cbn [data_calls fmap list_fmap run fst snd].
    use decode_first.
    use (decode_second _ s2 e2 b1 0xaa).
    use (decode_address _ s3 e3 b1 b2 0xaa s2).
    split; reflexivity. }
  pose proof (decode_read_status_overflow d3 start end_ b1 b2 b Hb3 Hq) as H4.
  exists d3. split; [exact H3 |]. split; [exact Hb3 |]. split; [exact H4 |].
  change [(s1, e1, 0xaa); (s2, e2, b1); (s3, e3, b2); (start, end_, b)]
    with ([(s1, e1, 0xaa); (s2, e2, b1); (s3, e3, b2)] ++ [(start, end_, b)]).
  rewrite data_calls_snoc, run_app, H3. cbn [run]. rewrite H4. reflexivity.
Qed.

Lemma read_scratchpad_overflow_witness :
  bytes init = [] ∧ 2 ^ 1026 ≤ (30 + 2 ^ 1026) - 30 ∧
  ∃ d3,
    run (data_calls [(0, 10, 0xaa); (10, 20, 0x10); (20, 30, 0x20)]) init
    = Ok (d3, [ [Put 0 10 ann_cmd ["Read Scratchpad"; "RD Sc"]]; [];
                [Put 10 30 ann_addr ["Target address: 0x2010"]] ])
    ∧ bytes d3 = [0xaa; 0x10; 0x20]
    ∧ decode 30 (30 + 2 ^ 1026) (DATA 0x45) d3 = Raise OverflowError
    ∧ run (data_calls [(0, 10, 0xaa); (10, 20, 0x10); (20, 30, 0x20);
                       (30, 30 + 2 ^ 1026, 0x45)]) init
      = Raise OverflowError.
Proof.
  split; [reflexivity |]. split; [vm_compute; discriminate |].
  apply (read_scratchpad_overflow init 0 10 10 20 0x10 20 30 0x20
           30 (30 + 2 ^ 1026) 0x45).
  - reflexivity.
  - vm_compute; discriminate.
Defined.
